(** * Job/status tracker and Reception web module

    A shallow embedding of
      - [modules/AIController/backend/messageProcessor.py] (class
        [MessageProcessor]) and
      - [modules/Reception/app.py] (class [Reception])
    together with the properties stated about them.

    Python dictionaries that are only looked up, inserted into and swept
    are [gmap]s; replies of the Celery control plane, whose order decides
    the order of the side effects, are association lists.  Methods that
    mutate [self] are functions in a state-and-exception monad over the
    record [state].  What the methods get from Celery's result backend and
    from [AsyncResult.ready()], and the order in which a table of
    [self.messages] enumerates its keys, are parameters of the methods;
    the theorems hold for every choice of them, under the conditions they
    state.  The thread body [MessageProcessor.run], which only calls
    [pollNow] and sleeps, and the route [/getCreateAccountUnrestricted]
    are not part of the development. *)

From Stdlib Require Import ZArith Ascii String List Lia.
From stdpp Require Import base option list gmap strings fin_maps.

Local Open Scope string_scope.
Local Open Scope list_scope.

(* ===================================================================== *)
(** * Python values and the string primitives the code calls             *)
(* ===================================================================== *)

Module Py.

(** The Python values that travel through the two modules. *)
#[local] Set Warnings "-register-all".
Inductive pyval : Type :=
| VNone
| VBool (b : bool)
| VInt (z : Z)
| VStr (s : string)
| VExc (cls : string) (msg : string)
| VList (l : list pyval)
| VDict (kvs : list (string * pyval)).

(** Truth value of an object in [if x:] / [if not x:]. *)
Definition truthy (v : pyval) : bool :=
  match v with
  | VNone => false
  | VBool b => b
  | VInt z => negb (Z.eqb z 0)
  | VStr s => negb (String.eqb s "")
  | VExc _ _ => true
  | VList l => match l with [] => false | _ => true end
  | VDict d => match d with [] => false | _ => true end
  end.

(** [v == s] for a string constant [s]. *)
Definition eq_str (v : pyval) (s : string) : bool :=
  match v with
  | VStr s' => String.eqb s' s
  | _ => false
  end.

(** The dict literal [{'message': s}]. *)
Definition message_dict (s : string) : pyval := VDict [("message", VStr s)].

(** Exceptions.  [bottle.HTTPResponse] (with its subclass [HTTPError]) is
    itself an exception class and carries the response; every other
    subclass of [Exception] is identified by its class name; [BaseExc]
    stands for the exceptions outside [Exception] (KeyboardInterrupt,
    SystemExit), which only a bare [except:] catches. *)
Inductive http : Type :=
| Redirect (location : string)
| HTTPError (code : Z)
| Body (content : pyval).

Inductive exn : Type :=
| ExcHTTP (res : http)
| Exc (cls : string)
| BaseExc (cls : string).

(** [s.replace(c, by)] for a one-character pattern [c]. *)
Fixpoint replace_char (c : ascii) (by_ : string) (s : string) : string :=
  match s with
  | EmptyString => EmptyString
  | String a s' =>
      if Ascii.eqb a c then by_ +:+ replace_char c by_ s'
      else String a (replace_char c by_ s')
  end.

Definition dquote : ascii := "034"%char.
Definition squote : ascii := "039"%char.

(** [html.escape(s)] of the standard library, with its default
    [quote=True]: five successive [replace] passes, the ampersand first. *)
Definition html_escape (s : string) : string :=
  let s := replace_char "&"%char "&amp;" s in
  let s := replace_char "<"%char "&lt;" s in
  let s := replace_char ">"%char "&gt;" s in
  let s := replace_char dquote "&quot;" s in
  let s := replace_char squote "&#x27;" s in
  s.

(** [c in s] for a character. *)
Fixpoint occurs (c : ascii) (s : string) : bool :=
  match s with
  | EmptyString => false
  | String a s' => Ascii.eqb a c || occurs c s'
  end.

(** [sub in s] for strings. *)
Fixpoint contains (sub s : string) : bool :=
  String.prefix sub s ||
  match s with
  | EmptyString => false
  | String _ s' => contains sub s'
  end.

(** [s.replace(old, new)] for a non-empty [old]: occurrences are replaced
    from left to right and do not overlap; [skip] counts the characters of
    a matched occurrence still to be dropped. *)
Fixpoint replace_from (old new : string) (skip : nat) (s : string) : string :=
  match s with
  | EmptyString => EmptyString
  | String a s' =>
      match skip with
      | S k => replace_from old new k s'
      | O =>
          if String.prefix old s
          then new +:+ replace_from old new (String.length old - 1) s'
          else String a (replace_from old new 0 s')
      end
  end.

Definition replace (old new s : string) : string := replace_from old new 0 s.

End Py.

Import Py.

(* ===================================================================== *)
(** * modules/AIController/backend/messageProcessor.py                   *)
(* ===================================================================== *)

Module MessageProcessor.

(** [celery.states]. *)
Definition PENDING : string := "PENDING".
Definition SUCCESS : string := "SUCCESS".
Definition FAILURE : string := "FAILURE".
Definition REVOKED : string := "REVOKED".

(** A job handle ([AsyncResult] or [GroupResult]).  [job_children] is the
    value of [job.children] where the attribute exists and is not [None];
    the entries are the [task_id]s of the children. *)
Record job : Type := mkJob {
  job_id : string;
  job_children : option (list string)
}.

(** [celery.result.AsyncResult(taskID)]. *)
Definition AsyncResult (taskID : string) : job :=
  {| job_id := taskID; job_children := None |}.

(** An entry of [self.messages[project]], and of the map [poll_status]
    returns. *)
Record status_record : Type := mkRecord {
  r_type : string;
  r_submitted : string;
  r_status : pyval;
  r_meta : pyval
}.

(** A task as the control plane describes it: [t['id']], [t['name']],
    [t['delivery_info']['routing_key']]. *)
Record task : Type := mkTask {
  t_id : string;
  t_name : string;
  t_routing_key : string
}.

(** What [self.celery_app.control.inspect()] answers during one call:
    [stats()], [active()] and [scheduled()], each [None] when no worker
    replied, else a dict keyed by worker in reply order. *)
Record inspect : Type := mkInspect {
  i_stats : option (list string);
  i_active : option (list (string * list task));
  i_scheduled : option (list (string * pyval))
}.

(** Completion callbacks are opaque handles. *)
Definition callback : Type := nat.

(** The three stores of a [MessageProcessor] and the part of the outside
    world its methods act on: the result backend (task id to the stored
    metadata dict), the number of readings taken so far from the clock and
    from the UUID generator, and the control messages sent to the
    broadcast queue. *)
Record state : Type := mkState {
  jobs : gmap string (list job);
  messages : gmap string (gmap string status_record);
  on_complete : gmap string (option callback);
  backend : gmap string (gmap string pyval);
  clock : nat;
  uuids : nat;
  broadcasts : list string
}.

(** [MessageProcessor.__init__]. *)
Definition init (b : gmap string (gmap string pyval)) : state :=
  {| jobs := ∅; messages := ∅; on_complete := ∅;
     backend := b; clock := 0; uuids := 0; broadcasts := [] |}.

Definition set_jobs (f : gmap string (list job) -> gmap string (list job))
    (s : state) : state :=
  mkState (f (jobs s)) (messages s) (on_complete s) (backend s)
          (clock s) (uuids s) (broadcasts s).

Definition set_messages
    (f : gmap string (gmap string status_record) ->
         gmap string (gmap string status_record))
    (s : state) : state :=
  mkState (jobs s) (f (messages s)) (on_complete s) (backend s)
          (clock s) (uuids s) (broadcasts s).

Definition set_on_complete
    (f : gmap string (option callback) -> gmap string (option callback))
    (s : state) : state :=
  mkState (jobs s) (messages s) (f (on_complete s)) (backend s)
          (clock s) (uuids s) (broadcasts s).

Definition set_backend
    (f : gmap string (gmap string pyval) -> gmap string (gmap string pyval))
    (s : state) : state :=
  mkState (jobs s) (messages s) (on_complete s) (f (backend s))
          (clock s) (uuids s) (broadcasts s).

Definition tick (s : state) : state :=
  mkState (jobs s) (messages s) (on_complete s) (backend s)
          (S (clock s)) (uuids s) (broadcasts s).

Definition draw (s : state) : state :=
  mkState (jobs s) (messages s) (on_complete s) (backend s)
          (clock s) (S (uuids s)) (broadcasts s).

Definition send (m : string) (s : state) : state :=
  mkState (jobs s) (messages s) (on_complete s) (backend s)
          (clock s) (uuids s) (broadcasts s ++ [m]).

(** ** The state-and-exception monad of the methods *)

Inductive outcome (A : Type) : Type :=
| Ok (a : A) (s : state)
| Raise (e : exn) (s : state).
Arguments Ok {A} a s.
Arguments Raise {A} e s.

Definition M (A : Type) : Type := state -> outcome A.

Definition ret {A} (a : A) : M A := fun s => Ok a s.
Definition raise {A} (e : exn) : M A := fun s => Raise e s.
Definition bind {A B} (m : M A) (k : A -> M B) : M B :=
  fun s => match m s with
           | Ok a s' => k a s'
           | Raise e s' => Raise e s'
           end.
Definition get : M state := fun s => Ok s s.
Definition modify (f : state -> state) : M unit := fun s => Ok tt (f s).

#[export] Instance M_ret : MRet M := @ret.
#[export] Instance M_bind : MBind M := fun A B k m => bind m k.

(** [for x in l: body x]. *)
Fixpoint for_each {A} (l : list A) (body : A -> M unit) : M unit :=
  match l with
  | [] => ret tt
  | x :: l' => body x;; for_each l' body
  end.

(** A loop that also updates local variables of type [B]. *)
Fixpoint for_fold {A B} (l : list A) (body : B -> A -> M B) (b : B) : M B :=
  match l with
  | [] => ret b
  | x :: l' => b' ← body b x; for_fold l' body b'
  end.

(** The final state of a run, whether it returned or raised. *)
Definition final {A} (o : outcome A) : state :=
  match o with Ok _ s => s | Raise _ s => s end.

(** Whether a run returned. *)
Definition returned {A} (o : outcome A) : bool :=
  match o with Ok _ _ => true | Raise _ _ => false end.

(** [self.messages[project]], the empty table when the project is
    unknown. *)
Definition project_messages (project : string) (s : state)
    : gmap string status_record :=
  default ∅ (messages s !! project).

(** [self.jobs[project]], the empty list when the project is unknown. *)
Definition project_jobs (project : string) (s : state) : list job :=
  default [] (jobs s !! project).

(** [if not project in self.messages: self.messages[project] = {}]. *)
Definition ensure_messages (project : string) (s : state) : state :=
  match messages s !! project with
  | Some _ => s
  | None => set_messages (insert project ∅) s
  end.

(** [self.messages[project][key] = r]; the project's table exists at
    every call site. *)
Definition put_message (project key : string) (r : status_record)
    (s : state) : state :=
  set_messages (insert project (<[key := r]> (project_messages project s))) s.

(** [if not project in self.jobs: self.jobs[project] = []] followed by
    [self.jobs[project].append(j)]. *)
Definition append_job (project : string) (j : job) (s : state) : state :=
  set_jobs (insert project (project_jobs project s ++ [j])) s.

(** [d[key]] on a reply of the control plane: [TypeError] when the reply
    is [None], [KeyError] when the worker is missing from it. *)
Definition subscript {V} (d : option (list (string * V))) (key : string)
    : M V :=
  match d with
  | None => raise (Exc "TypeError")
  | Some l =>
      match List.find (fun kv => String.eqb (fst kv) key) l with
      | Some kv => ret (snd kv)
      | None => raise (Exc "KeyError")
      end
  end.

(** ** The result backend

    [AsyncResult(key).forget()] releases what the backend has stored for
    the task. *)
Definition forget (key : string) : M unit :=
  modify (set_backend (delete key)).

Section Methods.

(** [str(current_time())] at the n-th reading of the clock
    ([util.helpers.current_time]), [str(uuid.uuid1())] at the n-th draw,
    and the built-in [str]. *)
Variable current_time : nat -> string.
Variable uuid1 : nat -> string.
Variable py_str : pyval -> string.

(** The part of Celery the methods call into.  [unstored] is the dict the
    result backend answers for a task it has nothing stored for (Celery's
    key-value backends answer [{'status': 'PENDING', 'result': None}]).
    [ready_of msg] is what [AsyncResult(key).ready()] does when the backend
    answers [msg] for the task: it returns a truth value or raises
    (Celery 4 raises [KeyError] when [msg] has no ['status'], and when the
    status is [FAILURE] or [REVOKED] and [msg] has no ['result']).
    [items table] lists the entries of a project's table in the order in
    which the dict enumerates its keys, which is the order of insertion. *)
Variable unstored : gmap string pyval.
Variable ready_of : gmap string pyval -> exn + bool.
Variable items : gmap string status_record -> list (string * status_record).

(** [self.celery_app.backend.get_task_meta(key)]. *)
Definition get_task_meta (key : string) (s : state) : gmap string pyval :=
  default unstored (backend s !! key).

(** [AsyncResult(key).ready()]. *)
Definition ready (key : string) : M bool :=
  fun s => match ready_of (get_task_meta key s) with
           | inl e => Raise e s
           | inr b => Ok b s
           end.

Definition now : M string :=
  fun s => Ok (current_time (clock s)) (tick s).

Definition new_uuid : M string :=
  fun s => Ok (uuid1 (uuids s)) (draw s).

(** The record both sweeps create for a task found at a worker.  The
    [try] block that would reconstruct the submission time names
    [datetime], which the module never imports, so it always ends in the
    [except] branch and [timeSubmitted] is [str(current_time())]. *)
Definition worker_record (name timeSubmitted : string) : status_record :=
  {| r_type := if contains "train" name then "train" else "inference";
     r_submitted := timeSubmitted;
     r_status := VStr PENDING;
     r_meta := message_dict "job at worker" |}.

(** The record [register_job] creates. *)
Definition registered_record (taskType submitted : string) : status_record :=
  {| r_type := taskType;
     r_submitted := submitted;
     r_status := VStr PENDING;
     r_meta := message_dict "sending job to worker" |}.

(** [__add_worker_task]. *)
Definition add_worker_task (t : task) : M unit :=
  let project := t_routing_key t in
  modify (ensure_messages project);;
  s ← get;
  match project_messages project s !! t_id t with
  | None =>
      timeSubmitted ← now;
      modify (put_message project (t_id t)
                (worker_record (t_name t) timeSubmitted))
  | Some _ => ret tt
  end;;
  r ← ready (t_id t);
  if r : bool then forget (t_id t) else ret tt.

(** The inner loop of [poll_worker_status]: one active task of a worker. *)
Definition worker_task (project : string) (activeTasks : list string)
    (t : task) : M (list string) :=
  let activeTasks :=
    if String.eqb (t_routing_key t) project
    then activeTasks ++ [t_id t] else activeTasks in
  add_worker_task t;;
  ret activeTasks.

(** The outer loop of [poll_worker_status]: one worker of the statistics. *)
Definition worker_round (i : inspect) (project : string)
    (workerStatus : gmap string (list string * pyval)) (key : string)
    : M (gmap string (list string * pyval)) :=
  let workerName := replace "celery@" "" key in
  tasks ← subscript (i_active i) key;
  activeTasks ← for_fold tasks (worker_task project) [];
  scheduled ← subscript (i_scheduled i) key;
  ret (<[workerName := (activeTasks, scheduled)]> workerStatus).

(** [poll_worker_status]. *)
Definition poll_worker_status (i : inspect) (project : string)
    : M (gmap string (list string * pyval)) :=
  match i_stats i with
  | Some ((_ :: _) as stats) => for_fold stats (worker_round i project) ∅
  | _ => ret ∅
  end.

(** The dict [__poll_tasks] builds for one task from the local record
    [job] and the backend's answer [msg]; a missing ['status'] or
    ['result'] is a [KeyError]. *)
Definition poll_entry (job : status_record) (msg : gmap string pyval)
    : exn + status_record :=
  match msg !! "status" with
  | None => inl (Exc "KeyError")
  | Some status =>
      let info :=
        if eq_str status FAILURE then
          match msg !! "meta" with
          | Some detail => Some (message_dict (html_escape (py_str detail)))
          | None => Some (message_dict "an unknown error occurred")
          end
        else msg !! "result" in
      match info with
      | None => inl (Exc "KeyError")
      | Some info =>
          inr {| r_type := r_type job;
                 r_submitted := r_submitted job;
                 r_status := status;
                 r_meta := info |}
      end
  end.

(** One round of the loop of [__poll_tasks]; [acc] holds the local
    variables [status] and [task_ongoing]. *)
Definition poll_task (acc : gmap string status_record * bool)
    (kj : string * status_record) : M (gmap string status_record * bool) :=
  let '(status, task_ongoing) := acc in
  let '(key, job) := kj in
  s ← get;
  let msg := get_task_meta key s in
  if Nat.eqb (size msg) 0 then ret acc
  else
    match poll_entry job msg with
    | inl e => raise e
    | inr entry =>
        let status := <[key := entry]> status in
        r ← ready key;
        if negb r then ret (status, true)
        else forget key;; ret (status, task_ongoing)
    end.

(** [__poll_tasks]; the loop runs over [self.messages[project].keys()]. *)
Definition poll_tasks (project : string)
    : M (gmap string status_record * bool) :=
  s ← get;
  match messages s !! project with
  | None => ret (∅, false)
  | Some table => for_fold (items table) poll_task (∅, false)
  end.

(** [poll_status]. *)
Definition poll_status (i : inspect) (project : string)
    : M (gmap string status_record) :=
  r ← poll_tasks project;
  if negb (snd r) then
    poll_worker_status i project;;
    r ← poll_tasks project;
    ret (fst r)
  else ret (fst r).

(** The body of the loop of [register_job] over the children of a
    group. *)
Definition register_child (project taskType child : string) : M unit :=
  submitted ← now;
  modify (put_message project child (registered_record taskType submitted)).

(** [register_job].  The broadcast of [{'task': 'add_projects'}] to the
    queue [aide_broadcast] is recorded in [broadcasts]. *)
Definition register_job (project : string) (j : job) (taskType : string)
    (callback_ : option callback) : M unit :=
  modify (append_job project j);;
  modify (ensure_messages project);;
  modify (send "add_projects");;
  match job_children j with
  | Some children => for_each children (register_child project taskType)
  | None =>
      s ← get;
      match project_messages project s !! job_id j with
      | None =>
          submitted ← now;
          modify (put_message project (job_id j)
                    (registered_record taskType submitted))
      | Some _ => ret tt
      end
  end;;
  modify (set_on_complete (insert (job_id j) callback_)).

(** [id in self.jobs[project]]: a job handle compares equal to a string
    when the string is its id. *)
Definition in_jobs (id : string) (l : list job) : bool :=
  existsb (fun j => String.eqb (job_id j) id) l.

(** [task_id]; the [while True] loop runs for at most [fuel] rounds and
    [None] means that they were used up. *)
Fixpoint task_id (fuel : nat) (project : string) : M (option string) :=
  match fuel with
  | O => ret None
  | S fuel' =>
      u ← new_uuid;
      let id := project +:+ "__" +:+ u in
      s ← get;
      match jobs s !! project with
      | None => ret (Some id)
      | Some l =>
          if negb (in_jobs id l) then ret (Some id)
          else task_id fuel' project
      end
  end.

(** The body of the innermost loop of [pollNow]. *)
Definition pollNow_task (t : task) : M unit :=
  let taskID := t_id t in
  let project := t_routing_key t in
  modify (ensure_messages project);;
  s ← get;
  match project_messages project s !! taskID with
  | None =>
      timeSubmitted ← now;
      modify (put_message project taskID
                (worker_record (t_name t) timeSubmitted));;
      modify (append_job project (AsyncResult taskID))
  | Some _ => ret tt
  end.

(** [pollNow]; [active_tasks.keys()] on a [None] reply is an
    [AttributeError]. *)
Definition pollNow (i : inspect) : M unit :=
  match i_stats i with
  | Some (_ :: _) =>
      match i_active i with
      | None => raise (Exc "AttributeError")
      | Some active_tasks =>
          for_each active_tasks (fun kv => for_each (snd kv) pollNow_task)
      end
  | _ => ret tt
  end.

(** The test of the loop of [task_ongoing] on one record. *)
Definition ongoing_record (taskType : string) (r : status_record) : bool :=
  String.eqb (r_type r) taskType &&
  negb (eq_str (r_status r) SUCCESS || eq_str (r_status r) FAILURE).

(** [task_ongoing]. *)
Definition task_ongoing (i : inspect) (project taskType : string) : M bool :=
  pollNow i;;
  s ← get;
  match messages s !! project with
  | None => ret false
  | Some table =>
      ret (existsb (fun kr => ongoing_record taskType (snd kr))
                   (map_to_list table))
  end.

End Methods.

End MessageProcessor.

(* ===================================================================== *)
(** * modules/Reception/app.py                                           *)
(* ===================================================================== *)

Module Reception.

(** What a route reads from [bottle.request]: the [username] cookie and
    the query parameter [t], each absent or a string. *)
Record request : Type := mkRequest {
  cookie_username : option string;
  query_t : option string
}.

(** The five arguments [loginCheck] forwards. *)
Record login_args : Type := mkArgs {
  la_project : option string;
  la_admin : bool;
  la_superuser : bool;
  la_canCreateProjects : bool;
  la_extend_session : bool
}.

(** A call returns a value or raises. *)
Inductive result (A : Type) : Type :=
| Return (a : A)
| Throw (e : exn).
Arguments Return {A} a.
Arguments Throw {A} e.

#[export] Instance result_ret : MRet result := @Return.
#[export] Instance result_bind : MBind result :=
  fun A B k m => match m with Return a => k a | Throw e => Throw e end.

(** An installed login check.  It reads the session of the request in
    flight; the routes call it without arguments ([None]) and
    [loginCheck] with all five. *)
Definition login_fn : Type := request -> option login_args -> result pyval.

Record reception : Type := mkReception {
  demoMode : bool;
  login_check : option login_fn
}.

(** [Reception.__init__], from the configured [Project.demoMode]. *)
Definition init (demo : bool) : reception :=
  {| demoMode := demo; login_check := None |}.

(** [addLoginCheckFun]. *)
Definition addLoginCheckFun (loginCheckFun : login_fn) (r : reception)
    : reception :=
  if negb (demoMode r)
  then {| demoMode := demoMode r; login_check := Some loginCheckFun |}
  else r.

(** [self.login_check(...)]: calling [None] is a [TypeError]. *)
Definition call_login_check (r : reception) (req : request)
    (args : option login_args) : result pyval :=
  match login_check r with
  | None => Throw (Exc "TypeError")
  | Some f => f req args
  end.

(** [loginCheck]. *)
Definition loginCheck (r : reception) (req : request)
    (project : option string)
    (admin superuser canCreateProjects extend_session : bool)
    : result pyval :=
  call_login_check r req
    (Some (mkArgs project admin superuser canCreateProjects extend_session)).

(** [html.escape(x)] where [x] may be [None], which has no [replace]. *)
Definition escape (x : option string) : result string :=
  match x with
  | Some s => Return (html_escape s)
  | None => Throw (Exc "AttributeError")
  end.

(** [request.query['t']]. *)
Definition query (req : request) : result string :=
  match query_t req with
  | Some t => Return t
  | None => Throw (Exc "KeyError")
  end.

(** [bottle.redirect] and [bottle.abort] raise the response.  The
    location is kept as the route wrote it. *)
Definition redirect {A} (url : string) : result A :=
  Throw (ExcHTTP (Redirect url)).
Definition abort {A} (code : Z) : result A :=
  Throw (ExcHTTP (HTTPError code)).

(** What bottle sends for the outcome of a route: a returned or raised
    [HTTPResponse] as it is, status 500 for any other [Exception];
    exceptions outside [Exception] leave the application. *)
Definition respond (o : result http) : option http :=
  match o with
  | Return res => Some res
  | Throw (ExcHTTP res) => Some res
  | Throw (Exc _) => Some (HTTPError 500)
  | Throw (BaseExc _) => None
  end.

Section Routes.

(** The collaborators: the template of the landing page and the two
    operations of [ReceptionMiddleware]. *)
Variable render : string -> pyval.
Variable get_project_info : string -> pyval -> result pyval.
Variable enroll_service : string -> string -> option string -> result pyval.

(** The [try] block of [projects] with its bare [except]. *)
Definition display_name (r : reception) (req : request) : string :=
  let attempt : result string :=
    if demoMode r then Return "Demo mode"
    else
      logged_in ← call_login_check r req None;
      if truthy logged_in then escape (cookie_username req)
      else Return "" in
  match attempt with
  | Return username => username
  | Throw _ => ""
  end.

(** Route [/]. *)
Definition projects (r : reception) (req : request) : result http :=
  Return (Body (render (display_name r req))).

(** Route [/getProjects]. *)
Definition get_projects (r : reception) (req : request) : result http :=
  let attempt : result string :=
    logged_in ← call_login_check r req None;
    if truthy logged_in then escape (cookie_username req)
    else Return "" in
  let username :=
    match attempt with
    | Return username => username
    | Throw _ => ""
    end in
  isSuperUser ← loginCheck r req None false true false false;
  projectInfo ← get_project_info username isSuperUser;
  Return (Body (VDict [("projects", projectInfo)])).

(** The outer [try] block of [enroll_in_project]. *)
Definition enroll_attempt (r : reception) (req : request) (project : string)
    : result http :=
  logged_in ← call_login_check r req None;
  if negb (truthy logged_in) then redirect "/"
  else
    username ← escape (cookie_username req);
    let providedToken :=
      match (t ← query req; escape (Some t)) with
      | Return t => Some t
      | Throw _ => None
      end in
    success ← enroll_service project username providedToken;
    if negb (truthy success) then abort 401
    else redirect ("/" +:+ project +:+ "/interface").

(** Route [/<project>/enroll], with its two handlers. *)
Definition enroll_in_project (r : reception) (req : request)
    (project : string) : result http :=
  match enroll_attempt r req project with
  | Return res => Return res
  | Throw (ExcHTTP res) => Return res
  | Throw (Exc _) => abort 400
  | Throw (BaseExc cls) => Throw (BaseExc cls)
  end.

End Routes.

End Reception.

(* ===================================================================== *)
(** * Conditions on the environment and concrete inputs                   *)
(* ===================================================================== *)

Import MessageProcessor.
Import Reception.

(** Whether a call into the library comes back with a value. *)
Definition returns {A} (x : exn + A) : bool :=
  match x with inr _ => true | inl _ => false end.

(** An answer of the backend that [__poll_tasks] gets through: the empty
    dict, which it skips, or a dict with a ['status'] and, unless the
    status is [FAILURE], a ['result'], on which [ready()] returns. *)
Definition msg_ok (ready_of : gmap string pyval -> exn + bool)
    (msg : gmap string pyval) : bool :=
  Nat.eqb (size msg) 0 ||
  (match msg !! "status" with
   | Some status =>
       eq_str status FAILURE ||
       match msg !! "result" with Some _ => true | None => false end
   | None => false
   end && returns (ready_of msg)).

(** Every answer the backend can give is one [__poll_tasks] gets
    through. *)
Definition backend_ok (unstored : gmap string pyval)
    (ready_of : gmap string pyval -> exn + bool) (s : state) : Prop :=
  msg_ok ready_of unstored = true /\
  forall key msg, backend s !! key = Some msg -> msg_ok ready_of msg = true.

(** The answers for the tasks the project tracks are such. *)
Definition tracked_ok (unstored : gmap string pyval)
    (ready_of : gmap string pyval -> exn + bool) (project : string)
    (s : state) : Prop :=
  forall key job,
    project_messages project s !! key = Some job ->
    msg_ok ready_of (get_task_meta unstored key s) = true.

(** The tasks a reply of the control plane reports as active, over all
    workers. *)
Definition active_tasks (i : inspect) : list task :=
  concat (map snd (default [] (i_active i))).

(** [ready()] returns for every task the reply reports as active, and for
    a task the backend has nothing stored for. *)
Definition active_ok (unstored : gmap string pyval)
    (ready_of : gmap string pyval -> exn + bool) (i : inspect) (s : state)
    : Prop :=
  returns (ready_of unstored) = true /\
  forall t, t ∈ active_tasks i ->
    returns (ready_of (get_task_meta unstored (t_id t) s)) = true.

(** [items] lists every table completely and without repetition, in
    whatever order. *)
Definition enumerates
    (items : gmap string status_record -> list (string * status_record))
    : Prop :=
  forall table, items table ≡ₚ map_to_list table.

(** A reply of the control plane that [poll_worker_status] can read: no
    statistics at all, or active and scheduled tasks for every worker that
    sent statistics. *)
Definition inspect_ok (i : inspect) : bool :=
  match i_stats i with
  | Some ((_ :: _) as stats) =>
      match i_active i, i_scheduled i with
      | Some active, Some scheduled =>
          forallb (fun key =>
            match List.find (fun kv => String.eqb (fst kv) key) active,
                  List.find (fun kv => String.eqb (fst kv) key) scheduled with
            | Some _, Some _ => true
            | _, _ => false
            end) stats
      | _, _ => false
      end
  | _ => true
  end.

(** A task is tracked when its project's table has a record for it. *)
Definition tracked (t : task) (s : state) : Prop :=
  is_Some (project_messages (t_routing_key t) s !! t_id t).

(** The identifier [task_id] makes from the n-th draw of the generator
    [uuid1]. *)
Definition candidate (uuid1 : nat -> string) (project : string) (n : nat)
    : string :=
  project +:+ "__" +:+ uuid1 n.

(** Sweeps only add records: what a table holds, it keeps. *)
Definition grows (s s' : state) : Prop :=
  forall p k r,
    project_messages p s !! k = Some r -> project_messages p s' !! k = Some r.

(** What the polling methods may do to the state: add records and release
    stored results. *)
Definition settles (s s' : state) : Prop :=
  grows s s' /\ backend s' ⊆ backend s.

(** What the backend has stored for [key] stays as it is. *)
Definition spares (key : string) (s s' : state) : Prop :=
  backend s' !! key = backend s !! key.

(** ** Concrete inputs *)

(** A clock that always reads the same time, a generator whose n-th value
    is n strokes, and a rendering that gives a string as it is and an
    exception by its message. *)
Definition noon : nat -> string := fun _ => "2020-01-01 12:00:00".

Fixpoint strokes (n : nat) : string :=
  match n with
  | O => ""
  | S n' => String "u"%char (strokes n')
  end.

Definition render_text (v : pyval) : string :=
  match v with
  | VStr s => s
  | VExc _ msg => msg
  | _ => ""
  end.

(** A group of two tasks and a single task. *)
Definition group_job : job :=
  {| job_id := "g1"; job_children := Some ["c1"; "c2"] |}.
Definition single_job : job :=
  {| job_id := "j1"; job_children := None |}.

(** The library's part as Celery 4 has it.  A task with nothing stored is
    reported as pending.  [ready()] reads the state of the answer
    ([AsyncResult.state]), and for an answer in a ready state decodes it
    ([meta_from_decoded]), which for [FAILURE] and [REVOKED] reads
    ['result'] and turns it into an exception ([exception_to_python]): a
    false value and an exception are kept, a dict needs ['exc_type'] and
    ['exc_message'], anything else has no [get]. *)
Definition celery_unstored : gmap string pyval :=
  <["status" := VStr "PENDING"]> {["result" := VNone]}.

Definition exception_to_python (exc : pyval) : exn + unit :=
  if negb (truthy exc) then inr tt
  else
    match exc with
    | VExc _ _ => inr tt
    | VDict d =>
        match List.find (fun kv => String.eqb (fst kv) "exc_type") d,
              List.find (fun kv => String.eqb (fst kv) "exc_message") d with
        | Some _, Some _ => inr tt
        | _, _ => inl (Exc "KeyError")
        end
    | _ => inl (Exc "AttributeError")
    end.

Definition celery_ready (msg : gmap string pyval) : exn + bool :=
  match msg !! "status" with
  | None => inl (Exc "KeyError")
  | Some (VList _) | Some (VDict _) => inl (Exc "TypeError")
  | Some status =>
      if eq_str status FAILURE || eq_str status REVOKED then
        match msg !! "result" with
        | None => inl (Exc "KeyError")
        | Some exc =>
            match exception_to_python exc with
            | inl e => inl e
            | inr _ => inr true
            end
        end
      else inr (eq_str status SUCCESS)
  end.

(** A backend that has stored the failure of task [c1] and nothing about
    task [c2]. *)
Definition failed_c1 : gmap string pyval :=
  <["status" := VStr "FAILURE"]>
    (<["result" := VNone]> {["meta" := VStr "<script>"]}).
Definition backend_c1 : gmap string (gmap string pyval) :=
  {["c1" := failed_c1]}.

(** The tracker after the group was registered for project [projA]. *)
Definition registered_state : state :=
  final (register_job noon "projA" group_job "train" None
           (MessageProcessor.init backend_c1)).


(** One worker that runs two tasks of [projA], one of them reported
    twice, and a reply without any worker. *)
Definition one_worker : inspect :=
  {| i_stats := Some ["celery@w1"];
     i_active := Some [("celery@w1",
                        [mkTask "a1" "AIWorker.call_train" "projA";
                         mkTask "a2" "AIWorker.call_inference" "projA";
                         mkTask "a1" "AIWorker.call_train" "projA"])];
     i_scheduled := Some [("celery@w1", VList [])] |}.
Definition no_worker : inspect :=
  {| i_stats := None; i_active := None; i_scheduled := None |}.

(** Statistics of one worker, but no answer to [active()] and
    [scheduled()]. *)
Definition partial_reply : inspect :=
  {| i_stats := Some ["celery@w1"]; i_active := None; i_scheduled := None |}.

(** Concrete collaborators of the Reception routes. *)
Definition always_logged_in : login_fn := fun _ _ => Return (VBool true).
Definition never_logged_in : login_fn := fun _ _ => Return (VBool false).
Definition accept_all : string -> string -> option string -> result pyval :=
  fun _ _ _ => Return (VBool true).
Definition no_projects : string -> pyval -> result pyval :=
  fun _ _ => Return (VList []).
Definition alice : request :=
  {| cookie_username := Some "alice"; query_t := None |}.

(** ** Sequences of calls and what they preserve *)

(** The calls a user of the tracker can make, and a step of the outside
    world in which the workers store or drop results. *)
Inductive call : Type :=
| CallRegisterJob (project : string) (j : job) (taskType : string)
                  (callback_ : option callback)
| CallTaskId (fuel : nat) (project : string)
| CallPollWorkerStatus (i : inspect) (project : string)
| CallPollStatus (i : inspect) (project : string)
| CallTaskOngoing (i : inspect) (project taskType : string)
| CallPollNow (i : inspect)
| WorkersStore (b : gmap string (gmap string pyval)).

(** The state a call leaves, whether it returned or raised. *)
Definition exec (current_time uuid1 : nat -> string)
    (py_str : pyval -> string) (unstored : gmap string pyval)
    (ready_of : gmap string pyval -> exn + bool)
    (items : gmap string status_record -> list (string * status_record))
    (c : call) (s : state) : state :=
  match c with
  | CallRegisterJob project j taskType callback_ =>
      final (register_job current_time project j taskType callback_ s)
  | CallTaskId fuel project => final (task_id uuid1 fuel project s)
  | CallPollWorkerStatus i project =>
      final (poll_worker_status current_time unstored ready_of i project s)
  | CallPollStatus i project =>
      final (poll_status current_time py_str unstored ready_of items
               i project s)
  | CallTaskOngoing i project taskType =>
      final (task_ongoing current_time i project taskType s)
  | CallPollNow i => final (pollNow current_time i s)
  | WorkersStore b => set_backend (fun _ => b) s
  end.

(** The state after a sequence of calls on a new tracker. *)
Definition after_calls (current_time uuid1 : nat -> string)
    (py_str : pyval -> string) (unstored : gmap string pyval)
    (ready_of : gmap string pyval -> exn + bool)
    (items : gmap string status_record -> list (string * status_record))
    (b : gmap string (gmap string pyval)) (calls : list call) : state :=
  foldl (fun s c => exec current_time uuid1 py_str unstored ready_of items c s)
        (MessageProcessor.init b) calls.

(** Every local record has status [PENDING]. *)
Definition all_pending (s : state) : Prop :=
  forall p k r, project_messages p s !! k = Some r -> r_status r = VStr PENDING.

(** A record of the later state is a record of the earlier one or has
    status [PENDING]. *)
Definition fresh_pending (s s' : state) : Prop :=
  forall p k r,
    project_messages p s' !! k = Some r ->
    project_messages p s !! k = Some r \/ r_status r = VStr PENDING.

(** Job lists are extended at the end only, no task id leaves a table,
    and what is written is [PENDING]. *)
Definition evolves (s s' : state) : Prop :=
  (forall p, project_jobs p s `prefix_of` project_jobs p s') /\
  (forall p, dom (project_messages p s) ⊆ dom (project_messages p s')) /\
  fresh_pending s s'.

(** What a poll may do: add records and release results, nothing else. *)
Definition polls (s s' : state) : Prop :=
  jobs s' = jobs s /\ on_complete s' = on_complete s /\
  broadcasts s' = broadcasts s /\ uuids s' = uuids s /\
  settles s s'.

(** What a sweep of [pollNow] may do: add records and job handles. *)
Definition sweeps (s s' : state) : Prop :=
  backend s' = backend s /\ on_complete s' = on_complete s /\
  broadcasts s' = broadcasts s /\ grows s s'.

(** As many job handles were added as records, project by project. *)
Definition paired (s s' : state) : Prop :=
  forall p,
    length (project_jobs p s') + size (project_messages p s)
    = length (project_jobs p s) + size (project_messages p s').

(** A computation moves every state along [R], whether it returns or
    raises. *)
Definition keeps {A} (R : relation state) (m : M A) : Prop :=
  forall s, R s (final (m s)).

(** The worker name [poll_worker_status] files a worker under. *)
Definition worker_name (key : string) : string := replace "celery@" "" key.

(** [active_tasks[key]] for a key that is there, else no tasks. *)
Definition tasks_of (active : list (string * list task)) (key : string)
    : list task :=
  match List.find (fun kv => String.eqb (fst kv) key) active with
  | Some kv => snd kv
  | None => []
  end.

(** [scheduled_tasks[key]] for a key that is there, else [None]. *)
Definition scheduled_of (scheduled : list (string * pyval)) (key : string)
    : pyval :=
  match List.find (fun kv => String.eqb (fst kv) key) scheduled with
  | Some kv => snd kv
  | None => VNone
  end.

(** The snapshot entry of one worker. *)
Definition snapshot_entry (project : string)
    (active : list (string * list task)) (scheduled : list (string * pyval))
    (key : string) : list string * pyval :=
  (map t_id (List.filter (fun t => String.eqb (t_routing_key t) project)
               (tasks_of active key)),
   scheduled_of scheduled key).

(** Only the message store and the clock differ. *)
Definition writes_records (s s' : state) : Prop :=
  jobs s' = jobs s /\ on_complete s' = on_complete s /\
  broadcasts s' = broadcasts s /\ backend s' = backend s /\
  uuids s' = uuids s.

(** The ids of the tasks routed to [project]. *)
Definition ids_of (project : string) (tasks : list task) : list string :=
  map t_id (List.filter (fun t => String.eqb (t_routing_key t) project) tasks).

(** Stored metadata of a finished task, and a backend holding it for the
    single job. *)
Definition succeeded_j1 : gmap string pyval :=
  <["status" := VStr "SUCCESS"]> {["result" := VInt 42]}.
Definition backend_j1 : gmap string (gmap string pyval) :=
  {["j1" := succeeded_j1]}.

(** Metadata without a status. *)
Definition broken_c2 : gmap string pyval := {["result" := VNone]}.

(** A reply with active tasks but no answer to [scheduled()]. *)
Definition no_scheduled : inspect :=
  {| i_stats := Some ["celery@w1"];
     i_active := Some [("celery@w1",
                        [mkTask "a1" "AIWorker.call_train" "projA"])];
     i_scheduled := None |}.

(** A registration followed by the workers storing the job's success. *)
Definition finished_calls : list call :=
  [CallRegisterJob "projA" single_job "inference" None;
   WorkersStore backend_j1].

(** The registered group with unreadable metadata stored for [c2], and
    with [c1] reported as started. *)
Definition broken_state : state :=
  set_backend (fun _ => {["c2" := broken_c2]}) registered_state.
Definition running_c1 : gmap string pyval :=
  <["status" := VStr "STARTED"]> {["result" := VNone]}.
Definition running_state : state :=
  set_backend (fun _ => {["c1" := running_c1]}) registered_state.

(** A login check that knows the superuser only. *)
Definition superuser_only : login_fn :=
  fun _ args =>
    match args with
    | Some a => Return (VBool (la_superuser a))
    | None => Return (VBool true)
    end.

(** A service that answers with HTTP 403 on its own. *)
Definition forbidding : string -> string -> option string -> result pyval :=
  fun _ _ _ => Throw (ExcHTTP (HTTPError 403)).

(** A request with markup in the cookie and in the token. *)
Definition mallory : request :=
  {| cookie_username := Some "<b>mallory</b>"; query_t := Some "'t'" |}.


(* ===================================================================== *)
(** * Properties of the Reception module                                  *)
(* ===================================================================== *)

Section ReceptionFacts.

Variable render : string -> pyval.
Variable get_project_info : string -> pyval -> result pyval.
Variable enroll_service : string -> string -> option string -> result pyval.

(** The token handed to the service is the escaped query parameter, and
    absent when the parameter is. *)
Lemma enroll_attempt_logged_in r req project v u :
  call_login_check r req None = Return v ->
  truthy v = true ->
  cookie_username req = Some u ->
  enroll_attempt enroll_service r req project =
    (success ← enroll_service project (html_escape u)
                 (html_escape <$> query_t req);
     if negb (truthy success) then abort 401
     else redirect ("/" +:+ project +:+ "/interface")).
Proof.
  intros Hcall Hv Hu. unfold enroll_attempt, query.
  rewrite Hcall; cbn. rewrite Hv, Hu; cbn.
  destruct (query_t req); reflexivity.
Qed.

(** C1.  Route [/<project>/enroll]: a login check that reports "not
    logged in" gives a redirect to [/]; logged in and the service
    reporting failure gives HTTP 401; the service reporting success gives
    a redirect to [/<project>/interface]; any other failure (the login
    check raising, a missing cookie, the service raising) gives HTTP
    400. *)
Theorem enroll_in_project_responses r req project :
  (forall v,
      call_login_check r req None = Return v -> truthy v = false ->
      respond (enroll_in_project enroll_service r req project)
        = Some (Redirect "/")) /\
  (forall v u success,
      call_login_check r req None = Return v -> truthy v = true ->
      cookie_username req = Some u ->
      enroll_service project (html_escape u) (html_escape <$> query_t req)
        = Return success ->
      respond (enroll_in_project enroll_service r req project)
        = Some (if truthy success
                then Redirect ("/" +:+ project +:+ "/interface")
                else HTTPError 401)) /\
  (forall cls,
      enroll_attempt enroll_service r req project = Throw (Exc cls) ->
      respond (enroll_in_project enroll_service r req project)
        = Some (HTTPError 400)) /\
  (forall cls,
      call_login_check r req None = Throw (Exc cls) ->
      enroll_attempt enroll_service r req project = Throw (Exc cls)) /\
  (forall v,
      call_login_check r req None = Return v -> truthy v = true ->
      cookie_username req = None ->
      enroll_attempt enroll_service r req project
        = Throw (Exc "AttributeError")) /\
  (forall v u cls,
      call_login_check r req None = Return v -> truthy v = true ->
      cookie_username req = Some u ->
      enroll_service project (html_escape u) (html_escape <$> query_t req)
        = Throw (Exc cls) ->
      enroll_attempt enroll_service r req project = Throw (Exc cls)).
Proof.
  repeat split.
  - intros v Hcall Hv. unfold enroll_in_project, enroll_attempt.
    rewrite Hcall; cbn. rewrite Hv; reflexivity.
  - intros v u success Hcall Hv Hu Hs. unfold enroll_in_project.
    rewrite (enroll_attempt_logged_in _ _ _ _ _ Hcall Hv Hu), Hs; cbn.
    destruct (truthy success); reflexivity.
  - intros cls H. unfold enroll_in_project. rewrite H. reflexivity.
  - intros cls Hcall. unfold enroll_attempt. rewrite Hcall. reflexivity.
  - intros v Hcall Hv Hu. unfold enroll_attempt.
    rewrite Hcall; cbn. rewrite Hv, Hu; reflexivity.
  - intros v u cls Hcall Hv Hu Hs.
    rewrite (enroll_attempt_logged_in _ _ _ _ _ Hcall Hv Hu), Hs.
    reflexivity.
Qed.

(** C9.  Route [/]: in demo mode the display name is "Demo mode" whatever
    the cookies are; with demo mode off it is empty when no login check is
    installed, when the check raises and when it reports "not logged in";
    a failure while reading the cookie gives the empty name as well, and
    the route always returns the rendered page. *)
Theorem projects_display_name r req :
  (demoMode r = true -> display_name r req = "Demo mode") /\
  (demoMode r = false -> login_check r = None ->
     display_name r req = "") /\
  (forall e, demoMode r = false ->
     call_login_check r req None = Throw e -> display_name r req = "") /\
  (forall v, demoMode r = false ->
     call_login_check r req None = Return v -> truthy v = false ->
     display_name r req = "") /\
  (forall v, demoMode r = false ->
     call_login_check r req None = Return v -> truthy v = true ->
     display_name r req =
       match cookie_username req with
       | Some u => html_escape u
       | None => ""
       end) /\
  projects render r req = Return (Body (render (display_name r req))).
Proof.
  unfold display_name, call_login_check. repeat split.
  - intros ->. reflexivity.
  - intros -> ->. reflexivity.
  - intros e -> H. cbn. rewrite H. reflexivity.
  - intros v -> H Hv. cbn. rewrite H; cbn. rewrite Hv. reflexivity.
  - intros v -> H Hv. cbn. rewrite H; cbn. rewrite Hv.
    destruct (cookie_username req); reflexivity.
Qed.

(** In demo mode no sequence of installations changes the module. *)
Lemma install_all_demo (fs : list login_fn) r :
  demoMode r = true -> foldr addLoginCheckFun r fs = r.
Proof.
  intros Hd. induction fs as [|f fs IH]; cbn; [reflexivity|].
  rewrite IH. unfold addLoginCheckFun. rewrite Hd. reflexivity.
Qed.

(** C3, as the code has it.  In demo mode [addLoginCheckFun] never
    installs the supplied function: it leaves the module as it is, so
    after any number of installations no login check is installed, and
    the landing page reports "Demo mode" without consulting one.  With
    demo mode off the function is installed and [loginCheck] returns what
    it returns. *)
Theorem addLoginCheckFun_demo (f : login_fn) r :
  (demoMode r = true -> addLoginCheckFun f r = r) /\
  (forall fs, login_check (foldr addLoginCheckFun (init true) fs) = None) /\
  (forall fs req,
      display_name (foldr addLoginCheckFun (init true) fs) req
        = "Demo mode") /\
  (demoMode r = false ->
     forall req project admin superuser canCreateProjects extend_session,
       loginCheck (addLoginCheckFun f r) req project admin superuser
                  canCreateProjects extend_session
       = f req (Some (mkArgs project admin superuser canCreateProjects
                             extend_session))).
Proof.
  repeat split.
  - intros Hd. unfold addLoginCheckFun. rewrite Hd. reflexivity.
  - intros fs. rewrite install_all_demo; reflexivity.
  - intros fs req. rewrite install_all_demo; reflexivity.
  - intros Hd req project admin superuser canCreateProjects extend_session.
    unfold loginCheck, call_login_check, addLoginCheckFun.
    rewrite Hd. reflexivity.
Qed.

End ReceptionFacts.

Lemma enroll_in_project_responses_witness :
  respond (enroll_in_project accept_all
             (addLoginCheckFun never_logged_in (init false)) alice "p")
    = Some (Redirect "/") /\
  respond (enroll_in_project accept_all
             (addLoginCheckFun always_logged_in (init false)) alice "p")
    = Some (Redirect "/p/interface") /\
  respond (enroll_in_project accept_all (init false) alice "p")
    = Some (HTTPError 400).
Proof.
  split; [|split].
  - apply (proj1 (enroll_in_project_responses accept_all
                    (addLoginCheckFun never_logged_in (init false))
                    alice "p") (VBool false)); reflexivity.
  - apply (proj1 (proj2 (enroll_in_project_responses accept_all
                    (addLoginCheckFun always_logged_in (init false))
                    alice "p")) (VBool true) "alice" (VBool true));
      reflexivity.
  - apply (proj1 (proj2 (proj2 (enroll_in_project_responses accept_all
                    (init false) alice "p"))) "TypeError"); reflexivity.
Defined.

Lemma projects_display_name_witness :
  display_name (init true) alice = "Demo mode" /\
  display_name (init false) alice = "" /\
  display_name (addLoginCheckFun always_logged_in (init false)) alice
    = "alice".
Proof.
  split; [|split].
  - apply (proj1 (projects_display_name (fun _ => VNone) (init true) alice)).
    reflexivity.
  - apply (proj1 (proj2 (projects_display_name (fun _ => VNone)
                           (init false) alice))); reflexivity.
  - apply (proj1 (proj2 (proj2 (proj2 (proj2
             (projects_display_name (fun _ => VNone)
                (addLoginCheckFun always_logged_in (init false)) alice)))))
             (VBool true)); reflexivity.
Defined.

Lemma addLoginCheckFun_demo_witness :
  addLoginCheckFun always_logged_in (init true) = init true /\
  loginCheck (addLoginCheckFun always_logged_in (init false)) alice
             None false true false false
    = Return (VBool true).
Proof.
  split.
  - apply (proj1 (addLoginCheckFun_demo always_logged_in (init true))).
    reflexivity.
  - apply (proj2 (proj2 (proj2
             (addLoginCheckFun_demo always_logged_in (init false))))).
    reflexivity.
Defined.

(** C3 as stated fails: in demo mode the login check that [/getProjects]
    makes through [loginCheck] does not evaluate to true.  Nothing is
    installed, the call raises [TypeError], and the route answers with
    status 500. *)
Lemma demo_loginCheck_not_true :
  let r := addLoginCheckFun always_logged_in (init true) in
  login_check r = None /\
  loginCheck r alice None false true false false = Throw (Exc "TypeError") /\
  ~ (exists v, loginCheck r alice None false true false false = Return v
               /\ truthy v = true) /\
  respond (get_projects no_projects r alice) = Some (HTTPError 500).
Proof.
  cbn. repeat split.
  intros [v [H _]]. discriminate H.
Qed.

(* ===================================================================== *)
(** * Properties of [html.escape]                                         *)
(* ===================================================================== *)

Lemma occurs_append c s1 s2 :
  occurs c (s1 +:+ s2) = occurs c s1 || occurs c s2.
Proof.
  induction s1 as [|a s1 IH]; [reflexivity|].
  change (String a s1 +:+ s2) with (String a (s1 +:+ s2)).
  cbn [occurs]. rewrite IH. apply orb_assoc.
Qed.

(** A pass removes its pattern when the replacement does not contain it. *)
Lemma replace_char_removes c by_ s :
  occurs c by_ = false -> occurs c (replace_char c by_ s) = false.
Proof.
  intros Hby. induction s as [|a s IH]; cbn [replace_char]; [reflexivity|].
  destruct (Ascii.eqb a c) eqn:E.
  - rewrite occurs_append, Hby, IH. reflexivity.
  - cbn [occurs]. rewrite E, IH. reflexivity.
Qed.

(** A pass does not bring in a character that neither the input nor the
    replacement contains. *)
Lemma replace_char_absent c c' by_ s :
  occurs c by_ = false -> occurs c s = false ->
  occurs c (replace_char c' by_ s) = false.
Proof.
  intros Hby. induction s as [|a s IH]; cbn [replace_char occurs];
    [reflexivity|].
  intros H. apply orb_false_iff in H as [Ha Hs].
  destruct (Ascii.eqb a c').
  - rewrite occurs_append, Hby, IH; auto.
  - cbn [occurs]. rewrite Ha, IH; auto.
Qed.

Lemma html_escape_no_markup s :
  occurs "<"%char (html_escape s) = false /\
  occurs ">"%char (html_escape s) = false /\
  occurs dquote (html_escape s) = false /\
  occurs squote (html_escape s) = false.
Proof.
  unfold html_escape. repeat split.
  - do 3 (apply replace_char_absent; [reflexivity|]).
    apply replace_char_removes. reflexivity.
  - do 2 (apply replace_char_absent; [reflexivity|]).
    apply replace_char_removes. reflexivity.
  - apply replace_char_absent; [reflexivity|].
    apply replace_char_removes. reflexivity.
  - apply replace_char_removes. reflexivity.
Qed.

Example html_escape_script :
  html_escape "<script>alert('x')</script>"
  = "&lt;script&gt;alert(&#x27;x&#x27;)&lt;/script&gt;".
Proof. reflexivity. Qed.

Example html_escape_ampersand_first : html_escape "a&<" = "a&amp;&lt;".
Proof. reflexivity. Qed.

(* ===================================================================== *)
(** * Properties of the job/status tracker                                *)
(* ===================================================================== *)

(** ** The stores under the elementary updates *)

Lemma messages_put_same p k r s :
  project_messages p (put_message p k r s) = <[k := r]> (project_messages p s).
Proof. unfold project_messages, put_message; cbn. by rewrite lookup_insert_eq. Qed.

Lemma messages_put_other p p' k r s :
  p <> p' -> project_messages p' (put_message p k r s) = project_messages p' s.
Proof.
  intros Hne. unfold project_messages, put_message; cbn.
  by rewrite lookup_insert_ne.
Qed.

Lemma messages_ensure p p' s :
  project_messages p' (ensure_messages p s) = project_messages p' s.
Proof.
  unfold project_messages, ensure_messages.
  destruct (messages s !! p) eqn:E; [reflexivity|]. cbn.
  destruct (decide (p = p')) as [->|Hne].
  - by rewrite lookup_insert_eq, E.
  - by rewrite lookup_insert_ne.
Qed.

Lemma messages_tick p s : project_messages p (tick s) = project_messages p s.
Proof. reflexivity. Qed.

Lemma messages_append_job p q j s :
  project_messages p (append_job q j s) = project_messages p s.
Proof. reflexivity. Qed.

Lemma messages_set_on_complete p f s :
  project_messages p (set_on_complete f s) = project_messages p s.
Proof. reflexivity. Qed.

Lemma ensure_known p s :
  is_Some (messages s !! p) -> ensure_messages p s = s.
Proof. intros [t Ht]. unfold ensure_messages. by rewrite Ht. Qed.

Lemma ensure_is_Some p s : is_Some (messages (ensure_messages p s) !! p).
Proof.
  unfold ensure_messages. destruct (messages s !! p) eqn:E; [by rewrite E|].
  cbn. rewrite lookup_insert_eq. eauto.
Qed.

Lemma messages_lookup_known p k r s :
  project_messages p s !! k = Some r -> is_Some (messages s !! p).
Proof.
  unfold project_messages. destruct (messages s !! p); [eauto|].
  cbn. by rewrite lookup_empty.
Qed.

(** Unfolds the monad operations in the goal. *)
Ltac run :=
  unfold mbind, M_bind, bind, mret, M_ret, ret, raise, modify, get,
    forget, now, new_uuid; cbn beta iota.

#[local] Instance grows_preorder : PreOrder grows.
Proof.
  split.
  - intros s p k r H. exact H.
  - intros s1 s2 s3 H12 H23 p k r H. apply H23, H12, H.
Qed.

Lemma tracked_grows t s s' : tracked t s -> grows s s' -> tracked t s'.
Proof. intros [r Hr] Hg. exists r. apply Hg, Hr. Qed.

(** ** Loops *)

(** A loop whose rounds all return, each establishing [Q] for its element
    and moving the state along a preorder [R] that preserves [Q]. *)
Lemma for_each_rel {A} (R : relation state) `{!PreOrder R}
    (Q : A -> state -> Prop) (body : A -> M unit) :
  (forall x s s', Q x s -> R s s' -> Q x s') ->
  (forall x s, exists s', body x s = Ok tt s' /\ R s s' /\ Q x s') ->
  forall l s, exists s',
    for_each l body s = Ok tt s' /\ R s s' /\ forall x, x ∈ l -> Q x s'.
Proof.
  intros Hstable Hbody l.
  induction l as [|x l IH]; intros s.
  - exists s. split; [reflexivity|]. split; [reflexivity|].
    intros x Hx. inversion Hx.
  - destruct (Hbody x s) as (s1 & E1 & R1 & Q1).
    destruct (IH s1) as (s2 & E2 & R2 & Q2).
    exists s2. split; [|split].
    + cbn [for_each]. run. rewrite E1. exact E2.
    + etransitivity; eassumption.
    + intros y Hy. apply elem_of_cons in Hy as [->|Hy]; [|auto].
      eapply Hstable; eassumption.
Qed.

(** A loop whose rounds all leave the state as it is. *)
Lemma for_each_fixed {A} (body : A -> M unit) l s :
  (forall x, x ∈ l -> body x s = Ok tt s) -> for_each l body s = Ok tt s.
Proof.
  induction l as [|x l IH]; intros H; [reflexivity|].
  cbn [for_each]. run. rewrite (H x) by (apply elem_of_cons; by left).
  apply IH. intros y Hy. apply H. apply elem_of_cons. by right.
Qed.

(** ** [pollNow] *)

Section PollNow.

Variable current_time : nat -> string.

(** A task that is already tracked is passed over. *)
Lemma pollNow_task_tracked t s :
  tracked t s -> pollNow_task current_time t s = Ok tt s.
Proof.
  intros [r Hr]. unfold pollNow_task. run.
  rewrite (ensure_known _ _ (messages_lookup_known _ _ _ _ Hr)).
  rewrite Hr. reflexivity.
Qed.

(** The state a round leaves. *)
Lemma pollNow_task_eq t s :
  pollNow_task current_time t s =
  let s1 := ensure_messages (t_routing_key t) s in
  match project_messages (t_routing_key t) s1 !! t_id t with
  | Some _ => Ok tt s1
  | None =>
      Ok tt (append_job (t_routing_key t) (AsyncResult (t_id t))
               (put_message (t_routing_key t) (t_id t)
                  (worker_record (t_name t) (current_time (clock s1)))
                  (tick s1)))
  end.
Proof.
  unfold pollNow_task. run.
  destruct (project_messages _ _ !! t_id t); reflexivity.
Qed.

(** Every round returns, keeps the records there are and leaves its task
    tracked. *)
Lemma pollNow_task_tracks t s :
  exists s', pollNow_task current_time t s = Ok tt s' /\
             grows s s' /\ tracked t s'.
Proof.
  rewrite pollNow_task_eq. cbn zeta.
  destruct (project_messages (t_routing_key t)
              (ensure_messages (t_routing_key t) s) !! t_id t) as [r|] eqn:E.
  - eexists. split; [reflexivity|]. split.
    + intros p k r' H. by rewrite messages_ensure.
    + exists r. exact E.
  - eexists. split; [reflexivity|].
    rewrite messages_ensure in E. split.
    + intros p k r' H. rewrite messages_append_job.
      destruct (decide (t_routing_key t = p)) as [<-|Hne].
      * rewrite messages_put_same, messages_tick, messages_ensure.
        destruct (decide (t_id t = k)) as [<-|Hk]; [congruence|].
        by rewrite lookup_insert_ne.
      * by rewrite messages_put_other, messages_tick, messages_ensure.
    + unfold tracked. rewrite messages_append_job, messages_put_same.
      rewrite lookup_insert_eq. eauto.
Qed.

(** The sweep over the tasks of one worker. *)
Lemma pollNow_worker taskList s :
  exists s', for_each taskList (pollNow_task current_time) s = Ok tt s' /\
             grows s s' /\ forall t, t ∈ taskList -> tracked t s'.
Proof.
  apply (for_each_rel grows (fun t s => tracked t s)).
  - intros t s1 s2. apply tracked_grows.
  - intros t s1. apply pollNow_task_tracks.
Qed.

(** The sweep over all workers. *)
Lemma pollNow_workers (active_tasks : list (string * list task)) s :
  exists s',
    for_each active_tasks
      (fun kv => for_each (snd kv) (pollNow_task current_time)) s = Ok tt s' /\
    grows s s' /\
    forall kv t, kv ∈ active_tasks -> t ∈ snd kv -> tracked t s'.
Proof.
  destruct (for_each_rel grows
              (fun (kv : string * list task) s =>
                 forall t, t ∈ snd kv -> tracked t s)
              (fun kv => for_each (snd kv) (pollNow_task current_time)))
    with (l := active_tasks) (s := s) as (s' & E & G & Q).
  - intros kv s1 s2 H G t Ht. eapply tracked_grows; eauto.
  - intros kv s1. apply pollNow_worker.
  - exists s'. split; [exact E|]. split; [exact G|].
    intros kv t Hkv Ht. eapply Q; eassumption.
Qed.

(** [pollNow] raises only on an [active()] reply of [None] that follows
    non-empty statistics, and then before it has changed anything. *)
Lemma pollNow_outcome i s :
  (exists s', pollNow current_time i s = Ok tt s' /\ grows s s') \/
  (i_active i = None /\
   pollNow current_time i s = Raise (Exc "AttributeError") s).
Proof.
  unfold pollNow.
  destruct (i_stats i) as [[|w stats]|]; try (left; exists s; by split).
  destruct (i_active i) as [active_tasks|]; [|right; by split].
  left. destruct (pollNow_workers active_tasks s) as (s' & E & G & _).
  exists s'. by split.
Qed.

End PollNow.

(** C10.  Running [pollNow] again on the state the first run left, with
    the same worker view, has the outcome of the first run and leaves
    that state as it is: no record and no job handle is added a second
    time. *)
Theorem pollNow_twice current_time i s :
  pollNow current_time i (final (pollNow current_time i s))
    = pollNow current_time i s /\
  final (pollNow current_time i (final (pollNow current_time i s)))
    = final (pollNow current_time i s) /\
  (forall s', pollNow current_time i s = Ok tt s' ->
     pollNow current_time i s' = Ok tt s').
Proof.
  assert (H : forall s', pollNow current_time i s = Ok tt s' ->
                         pollNow current_time i s' = Ok tt s').
  { unfold pollNow.
    destruct (i_stats i) as [[|w stats]|]; try (intros s' [= <-]; done).
    destruct (i_active i) as [active_tasks|]; [|discriminate].
    intros s' E.
    destruct (pollNow_workers current_time active_tasks s) as (s1 & E1 & _ & T).
    rewrite E1 in E. injection E as <-.
    apply for_each_fixed. intros kv Hkv.
    apply for_each_fixed. intros t Ht.
    apply pollNow_task_tracked. eapply T; eassumption. }
  destruct (pollNow_outcome current_time i s) as [(s' & E & _)|[Ha E]].
  - pose proof (H _ E) as E2.
    split; [|split; [|exact H]]; rewrite E; cbn [final]; rewrite E2;
      reflexivity.
  - split; [|split; [|exact H]]; rewrite E; cbn [final]; rewrite E;
      reflexivity.
Qed.

(** ** [task_ongoing] *)

Lemma eq_str_true v s : eq_str v s = true <-> v = VStr s.
Proof.
  destruct v; cbn; try (split; [discriminate|intros [=]]).
  rewrite String.eqb_eq. split; [by intros ->|by intros [= ->]].
Qed.

Lemma eq_str_false v s : eq_str v s = false <-> v <> VStr s.
Proof.
  rewrite <- eq_str_true. destruct (eq_str v s); split; congruence.
Qed.

Lemma ongoing_record_true taskType r :
  ongoing_record taskType r = true <->
  r_type r = taskType /\
  r_status r <> VStr SUCCESS /\ r_status r <> VStr FAILURE.
Proof.
  unfold ongoing_record.
  rewrite andb_true_iff, negb_true_iff, orb_false_iff, String.eqb_eq.
  by rewrite !eq_str_false.
Qed.

(** C4.  [task_ongoing] first runs the [pollNow] sweep and then answers
    true exactly when some record tracked under the project has the given
    type and a status that is neither [SUCCESS] nor [FAILURE]; with no
    tracked records it answers false.  If the sweep raises, so does
    [task_ongoing]. *)
Theorem task_ongoing_spec current_time i project taskType s :
  (forall s', pollNow current_time i s = Ok tt s' ->
     exists b,
       task_ongoing current_time i project taskType s = Ok b s' /\
       (b = true <->
        exists key r,
          project_messages project s' !! key = Some r /\
          r_type r = taskType /\
          r_status r <> VStr SUCCESS /\ r_status r <> VStr FAILURE) /\
       (project_messages project s' = ∅ -> b = false)) /\
  (forall e s', pollNow current_time i s = Raise e s' ->
     task_ongoing current_time i project taskType s = Raise e s').
Proof.
  split.
  - intros s' E. unfold task_ongoing. run. rewrite E.
    unfold project_messages.
    destruct (messages s' !! project) as [table|] eqn:Et; simpl.
    + eexists. split; [reflexivity|]. split.
      * rewrite existsb_exists. split.
        -- intros [[key r] [Hin Hr]].
           exists key, r. split.
           ++ apply elem_of_map_to_list. by apply list_elem_of_In.
           ++ by apply ongoing_record_true.
        -- intros (key & r & Hl & Hr). exists (key, r). split.
           ++ apply list_elem_of_In. by apply elem_of_map_to_list.
           ++ by apply ongoing_record_true.
      * intros ->. by rewrite map_to_list_empty.
    + exists false. split; [reflexivity|]. split; [|done].
      split; [discriminate|].
      intros (key & r & Hl & _). by rewrite lookup_empty in Hl.
  - intros e s' E. unfold task_ongoing. run. by rewrite E.
Qed.

(** ** [register_job] *)

Section RegisterJob.

Variable current_time : nat -> string.

(** The loop over the children writes a fresh record at every child id
    and touches nothing else. *)
Lemma register_children project taskType children :
  forall s, exists s',
    for_each children (register_child current_time project taskType) s
      = Ok tt s' /\
    (forall p, p <> project -> project_messages p s' = project_messages p s) /\
    (forall k, k ∉ children ->
       project_messages project s' !! k = project_messages project s !! k) /\
    (forall k, k ∈ children -> exists submitted,
       project_messages project s' !! k
         = Some (registered_record taskType submitted)) /\
    dom (project_messages project s')
      = list_to_set children ∪ dom (project_messages project s).
Proof.
  induction children as [|c children IH]; intros s.
  - exists s. split; [reflexivity|]. repeat split; try done.
    + intros k Hk. inversion Hk.
    + cbn. set_solver.
  - set (s1 := put_message project c
                 (registered_record taskType (current_time (clock s)))
                 (tick s)).
    destruct (IH s1) as (s' & E & Hother & Hout & Hin & Hdom).
    exists s'. split; [exact E|].
    assert (H1 : project_messages project s1
                 = <[c := registered_record taskType (current_time (clock s))]>
                     (project_messages project s)).
    { unfold s1. by rewrite messages_put_same, messages_tick. }
    repeat split.
    + intros p Hp. rewrite (Hother p Hp). unfold s1.
      by rewrite messages_put_other, messages_tick.
    + intros k Hk. apply not_elem_of_cons in Hk as [Hkc Hk].
      rewrite (Hout k Hk), H1. by rewrite lookup_insert_ne.
    + intros k Hk. destruct (decide (k ∈ children)) as [Hl|Hl]; [by apply Hin|].
      apply elem_of_cons in Hk as [->|Hk]; [|done].
      rewrite (Hout c Hl), H1, lookup_insert_eq. eauto.
    + rewrite Hdom, H1, dom_insert_L. cbn. set_solver.
Qed.

(** With children, [register_job] is the loop over them between the
    bookkeeping steps. *)
Lemma register_job_children project j taskType cb children s :
  job_children j = Some children ->
  register_job current_time project j taskType cb s =
  match for_each children (register_child current_time project taskType)
          (send "add_projects"
             (ensure_messages project (append_job project j s))) with
  | Ok _ s' => Ok tt (set_on_complete (insert (job_id j) cb) s')
  | Raise e s' => Raise e s'
  end.
Proof. intros Hc. unfold register_job. rewrite Hc. reflexivity. Qed.

(** Without children, [register_job] writes at most the record of the job
    itself. *)
Lemma register_job_single project j taskType cb s :
  job_children j = None ->
  register_job current_time project j taskType cb s =
  let s1 := send "add_projects"
              (ensure_messages project (append_job project j s)) in
  Ok tt (set_on_complete (insert (job_id j) cb)
           match project_messages project s !! job_id j with
           | None =>
               put_message project (job_id j)
                 (registered_record taskType (current_time (clock s1)))
                 (tick s1)
           | Some _ => s1
           end).
Proof.
  intros Hc. unfold register_job. rewrite Hc. run. cbn zeta.
  change (project_messages project
            (send "add_projects"
               (ensure_messages project (append_job project j s))))
    with (project_messages project
            (ensure_messages project (append_job project j s))).
  rewrite messages_ensure, messages_append_job.
  destruct (project_messages project s !! job_id j); reflexivity.
Qed.

End RegisterJob.

(** C5.  For a job with children, [register_job] writes a record at every
    child task id, with status [PENDING], the given type and the message
    "sending job to worker"; no other record of the project and no other
    project changes.  The ids of the table afterwards are those of before
    and the children, so two distinct children not tracked before make
    exactly two new records. *)
Theorem register_job_group current_time project j taskType cb children s :
  job_children j = Some children ->
  exists s',
    register_job current_time project j taskType cb s = Ok tt s' /\
    (forall child, child ∈ children -> exists r,
       project_messages project s' !! child = Some r /\
       r_type r = taskType /\ r_status r = VStr PENDING /\
       r_meta r = message_dict "sending job to worker") /\
    (forall k, k ∉ children ->
       project_messages project s' !! k = project_messages project s !! k) /\
    (forall p, p <> project -> project_messages p s' = project_messages p s) /\
    dom (project_messages project s')
      = list_to_set children ∪ dom (project_messages project s) /\
    (forall c1 c2, children = [c1; c2] -> c1 <> c2 ->
       project_messages project s !! c1 = None ->
       project_messages project s !! c2 = None ->
       size (project_messages project s')
         = 2 + size (project_messages project s)).
Proof.
  intros Hc. rewrite (register_job_children _ _ _ _ _ _ _ Hc).
  set (s1 := send "add_projects"
               (ensure_messages project (append_job project j s))).
  assert (H1 : forall p, project_messages p s1 = project_messages p s).
  { intros p. unfold s1.
    change (project_messages p (ensure_messages project (append_job project j s))
            = project_messages p s).
    by rewrite messages_ensure. }
  destruct (register_children current_time project taskType children s1)
    as (s' & E & Hother & Hout & Hin & Hdom).
  rewrite E. eexists. split; [reflexivity|].
  assert (Hdom' : dom (project_messages project s')
                  = list_to_set children ∪ dom (project_messages project s))
    by (by rewrite Hdom, H1).
  repeat split.
  - intros child Hchild. destruct (Hin child Hchild) as [submitted Hs].
    exists (registered_record taskType submitted). by split.
  - intros k Hk. etransitivity; [apply (Hout k Hk)|by rewrite H1].
  - intros p Hp. etransitivity; [apply (Hother p Hp)|by rewrite H1].
  - exact Hdom'.
  - intros c1 c2 -> Hne Hc1 Hc2.
    change (size (project_messages project s')
            = 2 + size (project_messages project s)).
    rewrite <- !size_dom, Hdom'. cbn.
    apply not_elem_of_dom in Hc1, Hc2.
    replace ({[c1]} ∪ ({[c2]} ∪ ∅) ∪ dom (project_messages project s))
      with ({[c1]} ∪ ({[c2]} ∪ dom (project_messages project s)))
      by set_solver.
    rewrite size_union by set_solver.
    rewrite size_union by set_solver.
    rewrite !size_singleton. lia.
Qed.

Section RegisterSingle.

Variable current_time : nat -> string.

(** A job whose id already has a record leaves the message store as it
    is. *)
Lemma register_job_existing project j taskType cb s :
  job_children j = None ->
  is_Some (project_messages project s !! job_id j) ->
  exists s', register_job current_time project j taskType cb s = Ok tt s' /\
             messages s' = messages s.
Proof.
  intros Hc [r Hr]. rewrite (register_job_single _ _ _ _ _ _ Hc). cbn zeta.
  rewrite Hr. eexists. split; [reflexivity|].
  change (messages (ensure_messages project (append_job project j s))
          = messages s).
  rewrite ensure_known; [reflexivity|].
  apply (messages_lookup_known project (job_id j) r s Hr).
Qed.

(** A job whose id has no record yet gets one. *)
Lemma register_job_new project j taskType cb s :
  job_children j = None ->
  project_messages project s !! job_id j = None ->
  exists s' submitted,
    register_job current_time project j taskType cb s = Ok tt s' /\
    project_messages project s'
      = <[job_id j := registered_record taskType submitted]>
          (project_messages project s) /\
    forall p, p <> project -> project_messages p s' = project_messages p s.
Proof.
  intros Hc Hn. rewrite (register_job_single _ _ _ _ _ _ Hc). cbn zeta.
  rewrite Hn.
  set (s1 := send "add_projects"
               (ensure_messages project (append_job project j s))).
  eexists. exists (current_time (clock s1)). split; [reflexivity|].
  assert (H1 : forall p, project_messages p (tick s1) = project_messages p s).
  { intros p. unfold s1.
    change (project_messages p (ensure_messages project (append_job project j s))
            = project_messages p s).
    by rewrite messages_ensure. }
  split.
  - rewrite messages_set_on_complete. by rewrite messages_put_same, H1.
  - intros p Hp. rewrite messages_set_on_complete.
    by rewrite messages_put_other, H1.
Qed.

End RegisterSingle.

(** C6.  For a job without children, [register_job] creates exactly one
    record, at the job's own id, when that id has none; when the id
    already has a record the message store stays as it is.  So a second
    registration of a job with the same id never overwrites the record of
    the first. *)
Theorem register_job_own_record current_time project j taskType cb s :
  job_children j = None ->
  exists s',
    register_job current_time project j taskType cb s = Ok tt s' /\
    (project_messages project s !! job_id j = None ->
       (exists submitted,
          project_messages project s'
            = <[job_id j := registered_record taskType submitted]>
                (project_messages project s)) /\
       size (project_messages project s')
         = S (size (project_messages project s))) /\
    (is_Some (project_messages project s !! job_id j) ->
       messages s' = messages s) /\
    (forall p, p <> project -> project_messages p s' = project_messages p s) /\
    (forall j2 taskType2 cb2,
       job_children j2 = None -> job_id j2 = job_id j ->
       exists s'',
         register_job current_time project j2 taskType2 cb2 s' = Ok tt s'' /\
         messages s'' = messages s').
Proof.
  intros Hc.
  destruct (project_messages project s !! job_id j) as [r|] eqn:E.
  - destruct (register_job_existing current_time project j taskType cb s Hc)
      as (s' & Hs' & Hm); [by rewrite E|].
    exists s'. split; [exact Hs'|]. split; [discriminate|].
    split; [done|]. split.
    + intros p _. unfold project_messages. by rewrite Hm.
    + intros j2 taskType2 cb2 Hc2 Hid.
      apply register_job_existing; [exact Hc2|].
      rewrite Hid. unfold project_messages. rewrite Hm.
      fold (project_messages project s). by rewrite E.
  - destruct (register_job_new current_time project j taskType cb s Hc E)
      as (s' & submitted & Hs' & Hm & Hother).
    exists s'. split; [exact Hs'|]. split; [|split; [|split]].
    + intros _. split; [by exists submitted|].
      rewrite Hm. by apply map_size_insert_None.
    + intros [r Hr]. discriminate Hr.
    + exact Hother.
    + intros j2 taskType2 cb2 Hc2 Hid.
      apply register_job_existing; [exact Hc2|].
      rewrite Hid, Hm, lookup_insert_eq. eauto.
Qed.

(** ** [task_id] *)

Section TaskId.

Variable uuid1 : nat -> string.

Lemma candidate_inj project :
  (forall a b, uuid1 a = uuid1 b -> a = b) ->
  forall a b, candidate uuid1 project a = candidate uuid1 project b -> a = b.
Proof.
  intros Hinj a b H. apply Hinj.
  unfold candidate in H.
  by do 2 apply String.app_inj in H.
Qed.

(** One round of the loop. *)
Lemma task_id_step fuel project s :
  task_id uuid1 (S fuel) project s =
  if negb (in_jobs (candidate uuid1 project (uuids s)) (project_jobs project s))
  then Ok (Some (candidate uuid1 project (uuids s))) (draw s)
  else task_id uuid1 fuel project (draw s).
Proof.
  cbn [task_id]. run. unfold project_jobs.
  change (jobs (draw s)) with (jobs s).
  destruct (jobs s !! project) as [l|]; [|reflexivity].
  unfold candidate. simpl.
  destruct (in_jobs _ l); reflexivity.
Qed.

(** What the loop returns is a candidate of a draw made during the call,
    and no job of the project has it as id. *)
Lemma task_id_returns fuel project :
  forall s id s',
    task_id uuid1 fuel project s = Ok (Some id) s' ->
    (exists n, uuids s <= n /\ uuids s' = S n /\ id = candidate uuid1 project n) /\
    jobs s' = jobs s /\ messages s' = messages s /\
    in_jobs id (project_jobs project s') = false.
Proof.
  induction fuel as [|fuel IH]; intros s id s' H; [discriminate|].
  rewrite task_id_step in H.
  destruct (in_jobs _ _) eqn:E; cbn [negb] in H.
  - destruct (IH _ _ _ H) as ((n & Hn & Hs' & Hid) & Hj & Hm & Hin).
    split; [|by repeat split].
    exists n. cbn in Hn. split; [lia|done].
  - injection H as <- <-. split; [|by repeat split].
    exists (uuids s). by repeat split.
Qed.

(** With draws that never repeat, the loop ends: every round that does
    not return strikes one id off the finite list [ids] of the ids that a
    later draw could still meet. *)
Lemma task_id_ends project :
  (forall a b, uuid1 a = uuid1 b -> a = b) ->
  forall fuel ids s,
    (forall n, uuids s <= n ->
       in_jobs (candidate uuid1 project n) (project_jobs project s) = true ->
       candidate uuid1 project n ∈ ids) ->
    length ids < fuel ->
    exists id s', task_id uuid1 fuel project s = Ok (Some id) s'.
Proof.
  intros Hinj. induction fuel as [|fuel IH]; intros ids s Hids Hlen; [lia|].
  rewrite task_id_step.
  destruct (in_jobs _ _) eqn:E; cbn [negb]; [|eauto].
  apply (IH (filter (fun x => x <> candidate uuid1 project (uuids s)) ids)).
  - intros n Hn Hin. cbn in Hn. apply list_elem_of_filter. split.
    + intros Heq. apply candidate_inj in Heq; [lia|exact Hinj].
    + apply Hids; [lia|exact Hin].
  - assert (length (filter (fun x => x <> candidate uuid1 project (uuids s)) ids)
            < length ids); [|lia].
    apply (length_filter_lt _ _ (candidate uuid1 project (uuids s))).
    + apply Hids; [lia|exact E].
    + intros Hne. by apply Hne.
Qed.

Lemma in_jobs_true id l :
  in_jobs id l = true -> id ∈ map job_id l.
Proof.
  unfold in_jobs. rewrite existsb_exists. intros (j & Hj & E).
  apply String.eqb_eq in E as <-.
  apply list_elem_of_In, in_map, Hj.
Qed.

Lemma in_jobs_false id l :
  in_jobs id l = false <-> forall j, j ∈ l -> job_id j <> id.
Proof.
  unfold in_jobs. split.
  - intros H j Hj Heq.
    assert (existsb (fun j => String.eqb (job_id j) id) l = true); [|congruence].
    apply existsb_exists. exists j. split; [by apply list_elem_of_In|].
    by apply String.eqb_eq.
  - intros H. destruct (existsb _ l) eqn:E; [|done].
    apply existsb_exists in E as (j & Hj & E).
    apply String.eqb_eq in E. by apply list_elem_of_In, H in Hj.
Qed.

End TaskId.

(** C8.  Whatever was registered before, what [task_id] returns is
    [project + '__' + u] for a value [u] drawn during the call, and no
    job in [jobs[project]] has it as id at the time of return; the call
    changes neither store.  As long as the generator never repeats a
    value, the loop returns within one round more than there are jobs in
    the project's list. *)
Theorem task_id_fresh uuid1 project s :
  (forall fuel id s',
     task_id uuid1 fuel project s = Ok (Some id) s' ->
     (exists n, uuids s <= n < uuids s' /\
                id = project +:+ "__" +:+ uuid1 n) /\
     (forall j, j ∈ project_jobs project s' -> job_id j <> id) /\
     jobs s' = jobs s /\ messages s' = messages s) /\
  ((forall a b, uuid1 a = uuid1 b -> a = b) ->
   exists id s',
     task_id uuid1 (S (length (project_jobs project s))) project s
       = Ok (Some id) s').
Proof.
  split.
  - intros fuel id s' H.
    destruct (task_id_returns uuid1 fuel project s id s' H)
      as ((n & Hn & Hs' & Hid) & Hj & Hm & Hin).
    split; [exists n; split; [lia|exact Hid]|].
    split; [by apply in_jobs_false|by split].
  - intros Hinj.
    apply (task_id_ends uuid1 project Hinj _
             (map job_id (project_jobs project s))).
    + intros n _ Hin. by apply in_jobs_true.
    + rewrite length_map. lia.
Qed.

(** ** The result backend *)

Section Backend.

Variable unstored : gmap string pyval.
Variable ready_of : gmap string pyval -> exn + bool.

Lemma get_task_meta_stored key msg s :
  backend s !! key = Some msg -> get_task_meta unstored key s = msg.
Proof. unfold get_task_meta. by intros ->. Qed.

Lemma get_task_meta_frame k s s' :
  backend s' !! k = backend s !! k ->
  get_task_meta unstored k s' = get_task_meta unstored k s.
Proof. unfold get_task_meta. by intros ->. Qed.

(** After results were released the backend answers for a task what it
    answered before, or what it answers when it has nothing stored. *)
Lemma get_task_meta_released key s s' :
  backend s' ⊆ backend s ->
  get_task_meta unstored key s' = get_task_meta unstored key s \/
  get_task_meta unstored key s' = unstored.
Proof.
  intros Hsub. unfold get_task_meta.
  destruct (backend s' !! key) as [m|] eqn:E; [left|by right].
  by rewrite (lookup_weaken _ _ _ _ E Hsub).
Qed.

Lemma msg_ok_empty msg : size msg = 0 -> msg_ok ready_of msg = true.
Proof. intros H. unfold msg_ok. by rewrite H. Qed.

Lemma backend_ok_subseteq s s' :
  backend s' ⊆ backend s ->
  backend_ok unstored ready_of s -> backend_ok unstored ready_of s'.
Proof.
  intros Hsub [Hu Hok]. split; [exact Hu|]. intros key msg H.
  apply (Hok key). eapply lookup_weaken; eassumption.
Qed.

Lemma backend_ok_answer key s :
  backend_ok unstored ready_of s ->
  msg_ok ready_of (get_task_meta unstored key s) = true.
Proof.
  intros [Hu Hok]. unfold get_task_meta.
  destruct (backend s !! key) as [m|] eqn:E; simpl; [by apply (Hok key)|done].
Qed.

Lemma backend_ok_tracked project s :
  backend_ok unstored ready_of s -> tracked_ok unstored ready_of project s.
Proof. intros Hok key job _. by apply backend_ok_answer. Qed.

Lemma active_ok_subseteq i s s' :
  backend s' ⊆ backend s ->
  active_ok unstored ready_of i s -> active_ok unstored ready_of i s'.
Proof.
  intros Hsub [Hu Ha]. split; [exact Hu|]. intros t Ht.
  destruct (get_task_meta_released (t_id t) s s' Hsub) as [-> | ->];
    [by apply Ha|exact Hu].
Qed.

End Backend.

(** The entries of a table as [items] lists them. *)
Lemma enumerates_NoDup items table :
  enumerates items -> NoDup (items table).*1.
Proof. intros H. rewrite (H table). apply NoDup_fst_map_to_list. Qed.

Lemma enumerates_elem_of items table k j :
  enumerates items -> (k, j) ∈ items table <-> table !! k = Some j.
Proof. intros H. rewrite (H table). apply elem_of_map_to_list. Qed.

Lemma enumerates_keys items table k :
  enumerates items -> k ∈ (items table).*1 <-> is_Some (table !! k).
Proof.
  intros H. rewrite list_elem_of_fmap. split.
  - intros ([k' j] & -> & Hin). apply (enumerates_elem_of _ _ _ _ H) in Hin.
    eauto.
  - intros [j Hj]. exists (k, j). split; [done|].
    by apply (enumerates_elem_of _ _ _ _ H).
Qed.

(** ** [__poll_tasks] *)

Section PollTasks.

Variable py_str : pyval -> string.
Variable unstored : gmap string pyval.
Variable ready_of : gmap string pyval -> exn + bool.
Variable items : gmap string status_record -> list (string * status_record).

Local Abbreviation answer := (get_task_meta unstored).
Local Abbreviation round := (poll_task py_str unstored ready_of).

(** An answer that is not empty yields an entry exactly when it has the
    keys the loop reads; what [poll_entry] raises is a [KeyError]. *)
Lemma poll_entry_outcome job msg :
  size msg <> 0 ->
  match poll_entry py_str job msg with
  | inl e => e = Exc "KeyError" /\ msg_ok ready_of msg = false
  | inr _ => msg_ok ready_of msg = returns (ready_of msg)
  end.
Proof.
  intros Hsz. apply Nat.eqb_neq in Hsz. unfold poll_entry, msg_ok.
  rewrite Hsz. cbn [orb].
  destruct (msg !! "status") as [status|]; [|by split].
  destruct (eq_str status FAILURE); cbn [orb andb].
  - by destruct (msg !! "meta").
  - by destruct (msg !! "result").
Qed.

(** One round of the loop, spelled out. *)
Lemma poll_task_eq acc key job s :
  round acc (key, job) s =
  let msg := answer key s in
  if Nat.eqb (size msg) 0 then Ok acc s
  else
    match poll_entry py_str job msg with
    | inl e => Raise e s
    | inr entry =>
        match ready_of msg with
        | inl e => Raise e s
        | inr b =>
            Ok (<[key := entry]> (fst acc), negb b || snd acc)
               (if b then set_backend (delete key) s else s)
        end
    end.
Proof.
  destruct acc as [status ongoing]. unfold poll_task, ready. run. cbn zeta.
  destruct (Nat.eqb _ 0); [reflexivity|].
  destruct (poll_entry py_str job _); [reflexivity|].
  destruct (ready_of _) as [e|[|]]; reflexivity.
Qed.

(** What one round does when it returns, and why it raises when it
    does. *)
Lemma poll_task_run acc key job s :
  match round acc (key, job) s with
  | Ok acc' s' =>
      msg_ok ready_of (answer key s) = true /\
      messages s' = messages s /\
      backend s' ⊆ backend s /\
      (forall k, k <> key -> backend s' !! k = backend s !! k) /\
      (forall k, k <> key -> fst acc' !! k = fst acc !! k) /\
      (size (answer key s) = 0 -> acc' = acc /\ s' = s) /\
      (size (answer key s) <> 0 ->
         exists entry b,
           poll_entry py_str job (answer key s) = inr entry /\
           ready_of (answer key s) = inr b /\
           acc' = (<[key := entry]> (fst acc), negb b || snd acc) /\
           s' = if b then set_backend (delete key) s else s)
  | Raise e s' =>
      s' = s /\
      msg_ok ready_of (answer key s) = false /\
      (e = Exc "KeyError" \/ ready_of (answer key s) = inl e)
  end.
Proof.
  rewrite poll_task_eq. cbn zeta.
  destruct (Nat.eqb (size (answer key s)) 0) eqn:Esz.
  - apply Nat.eqb_eq in Esz.
    split; [by apply msg_ok_empty|]. by repeat split.
  - apply Nat.eqb_neq in Esz.
    pose proof (poll_entry_outcome job (answer key s) Esz) as Ho.
    destruct (poll_entry py_str job (answer key s)) as [e|entry].
    { destruct Ho as [-> Hbad]. split; [done|]. split; [done|by left]. }
    destruct (ready_of (answer key s)) as [e|b] eqn:Er.
    { split; [done|]. split; [exact Ho|by right]. }
    split; [exact Ho|]. cbn [fst snd].
    split; [by destruct b|].
    split; [destruct b; [apply delete_subseteq|done]|].
    split.
    { intros k Hk. destruct b; [|done]. cbn. by rewrite lookup_delete_ne. }
    split; [intros k Hk; by rewrite lookup_insert_ne|].
    split; [done|]. intros _. by exists entry, b.
Qed.

(** The whole loop over a list of entries with pairwise distinct keys. *)
Lemma poll_loop_run l :
  forall acc s,
    NoDup l.*1 ->
    match for_fold l round acc s with
    | Ok acc' s' =>
        (forall k j, (k, j) ∈ l -> msg_ok ready_of (answer k s) = true) /\
        messages s' = messages s /\
        backend s' ⊆ backend s /\
        (forall k, k ∉ l.*1 -> fst acc' !! k = fst acc !! k) /\
        (forall k j, (k, j) ∈ l ->
           (size (answer k s) = 0 -> fst acc' !! k = fst acc !! k) /\
           (size (answer k s) <> 0 ->
              exists entry,
                poll_entry py_str j (answer k s) = inr entry /\
                fst acc' !! k = Some entry)) /\
        (snd acc' = true <->
         snd acc = true \/
         exists k j, (k, j) ∈ l /\ size (answer k s) <> 0 /\
                     ready_of (answer k s) = inr false) /\
        (forall k, k ∈ l.*1 -> size (answer k s) <> 0 ->
                   ready_of (answer k s) = inr true ->
                   backend s' !! k = None) /\
        (forall k, k ∉ l.*1 \/ size (answer k s) = 0 \/
                   ready_of (answer k s) = inr false ->
                   backend s' !! k = backend s !! k)
    | Raise e s' =>
        messages s' = messages s /\
        exists k j, (k, j) ∈ l /\ msg_ok ready_of (answer k s) = false /\
                    (e = Exc "KeyError" \/ ready_of (answer k s) = inl e)
    end.
Proof.
  induction l as [|[key job] l IH]; intros acc s Hnd.
  - cbn. split; [intros k j Hin; inversion Hin|].
    do 3 (split; [done|]). split; [intros k j Hin; inversion Hin|].
    split; [|split; [intros k Hk; inversion Hk|done]].
    split; [by left|]. intros [H|(k & j & Hin & _)]; [exact H|].
    inversion Hin.
  - apply NoDup_cons in Hnd as [Hkey Hnd]. cbn [fmap list_fmap fst] in *.
    cbn [for_fold]. run.
    pose proof (poll_task_run acc key job s) as Hr.
    destruct (round acc (key, job) s) as [acc1 s1|e s1].
    2:{ destruct Hr as (-> & Hbad & He). split; [done|].
        exists key, job. split; [apply elem_of_cons; by left|by split]. }
    destruct Hr as (Hok1 & Hm1 & Hb1 & Hf1 & Ha1 & Hz1 & Hn1).
    assert (Ht : forall k, k ∈ l.*1 -> k <> key /\ answer k s1 = answer k s).
    { intros k Hk. assert (Hne : k <> key) by (intros ->; done).
      split; [exact Hne|]. by apply get_task_meta_frame, Hf1. }
    assert (Hin_keys : forall k j, (k, j) ∈ l -> k ∈ l.*1).
    { intros k j Hin. apply list_elem_of_fmap. by exists (k, j). }
    specialize (IH acc1 s1 Hnd).
    destruct (for_fold l round acc1 s1) as [acc2 s2|e s2].
    2:{ destruct IH as (Hm2 & k & j & Hin & Hbad & He).
        split; [by rewrite Hm2|].
        destruct (Ht k (Hin_keys k j Hin)) as [_ Hans].
        rewrite Hans in Hbad, He.
        exists k, j. split; [apply elem_of_cons; by right|by split]. }
    destruct IH as (Hok2 & Hm2 & Hb2 & Ha2 & Hin2 & Hflag2 & Hrel2 & Hkeep2).
    assert (Hhead : backend s2 !! key = backend s1 !! key)
      by (apply Hkeep2; by left).
    split; [|split; [|split; [|split; [|split; [|split; [|split]]]]]].
    + intros k j Hin. apply elem_of_cons in Hin as [[= -> ->]|Hin];
        [exact Hok1|].
      destruct (Ht k (Hin_keys k j Hin)) as [_ <-]. by apply (Hok2 k j).
    + by rewrite Hm2.
    + by etransitivity.
    + intros k Hk. apply not_elem_of_cons in Hk as [Hne Hk].
      rewrite (Ha2 k Hk). by apply Ha1.
    + intros k j Hin. apply elem_of_cons in Hin as [[= -> ->]|Hin].
      * rewrite (Ha2 key Hkey). split.
        -- intros Hz. by destruct (Hz1 Hz) as [-> _].
        -- intros Hn. destruct (Hn1 Hn) as (entry & b & He & _ & -> & _).
           exists entry. split; [exact He|]. cbn. by rewrite lookup_insert_eq.
      * destruct (Ht k (Hin_keys k j Hin)) as [Hne Hans].
        destruct (Hin2 k j Hin) as [Hz Hn]. rewrite Hans in Hz, Hn.
        rewrite <- (Ha1 k Hne). by split.
    + rewrite Hflag2. split.
      * intros [H|(k & j & Hin & Hsz & Hrd)].
        -- destruct (decide (size (answer key s) = 0)) as [Hz|Hn].
           ++ destruct (Hz1 Hz) as [-> _]. by left.
           ++ destruct (Hn1 Hn) as (entry & b & _ & Hrd & -> & _).
              cbn [snd] in H. destruct b; cbn in H; [by left|].
              right. exists key, job.
              split; [apply elem_of_cons; by left|by split].
        -- destruct (Ht k (Hin_keys k j Hin)) as [_ Hans].
           rewrite Hans in Hsz, Hrd. right. exists k, j.
           split; [apply elem_of_cons; by right|by split].
      * intros [H|(k & j & Hin & Hsz & Hrd)].
        -- left. destruct (decide (size (answer key s) = 0)) as [Hz|Hn].
           ++ by destruct (Hz1 Hz) as [-> _].
           ++ destruct (Hn1 Hn) as (entry & b & _ & _ & -> & _).
              cbn [snd]. rewrite H. by destruct b.
        -- apply elem_of_cons in Hin as [[= -> ->]|Hin].
           ++ left. destruct (Hn1 Hsz) as (entry & b & _ & Hrd' & -> & _).
              rewrite Hrd in Hrd'. by injection Hrd' as <-.
           ++ right. exists k, j. split; [exact Hin|].
              destruct (Ht k (Hin_keys k j Hin)) as [_ Hans].
              rewrite Hans. by split.
    + intros k Hk Hsz Hrd. apply elem_of_cons in Hk as [->|Hk].
      * rewrite Hhead.
        destruct (Hn1 Hsz) as (entry & b & _ & Hrd' & _ & ->).
        rewrite Hrd in Hrd'. injection Hrd' as <-. cbn.
        apply lookup_delete_eq.
      * destruct (Ht k Hk) as [_ Hans]. apply Hrel2; [exact Hk|..];
          by rewrite Hans.
    + intros k Hk. destruct (decide (k = key)) as [->|Hne].
      * rewrite Hhead. destruct Hk as [Hk|[Hz|Hrd]].
        -- exfalso. apply Hk, elem_of_cons. by left.
        -- by destruct (Hz1 Hz) as [_ ->].
        -- destruct (decide (size (answer key s) = 0)) as [Hz|Hn];
             [by destruct (Hz1 Hz) as [_ ->]|].
           destruct (Hn1 Hn) as (entry & b & _ & Hrd' & _ & ->).
           rewrite Hrd in Hrd'. by injection Hrd' as <-.
      * rewrite <- (Hf1 k Hne). apply Hkeep2.
        rewrite (get_task_meta_frame unstored k s s1 (Hf1 k Hne)).
        destruct Hk as [Hk|Hk]; [|by right].
        left. intros Hk'. apply Hk, elem_of_cons. by right.
Qed.

(** [__poll_tasks]: when it returns, the answers for the tracked tasks
    were all such that the loop gets through them, the message store is
    as it was, the status map has an entry exactly for the tracked tasks
    with an answer that is not empty, the flag says whether one of them
    is not ready, and the results of those that are ready are released;
    when it raises, the answer for some tracked task was not such. *)
Lemma poll_tasks_run project s :
  enumerates items ->
  match poll_tasks py_str unstored ready_of items project s with
  | Ok r s' =>
      tracked_ok unstored ready_of project s /\
      messages s' = messages s /\
      backend s' ⊆ backend s /\
      (forall k, project_messages project s !! k = None -> fst r !! k = None) /\
      (forall k j, project_messages project s !! k = Some j ->
         (size (answer k s) = 0 -> fst r !! k = None) /\
         (size (answer k s) <> 0 ->
            exists entry,
              poll_entry py_str j (answer k s) = inr entry /\
              fst r !! k = Some entry)) /\
      (snd r = true <->
       exists k j, project_messages project s !! k = Some j /\
                   size (answer k s) <> 0 /\
                   ready_of (answer k s) = inr false) /\
      (forall k, is_Some (project_messages project s !! k) ->
                 size (answer k s) <> 0 ->
                 ready_of (answer k s) = inr true ->
                 backend s' !! k = None) /\
      (forall k, project_messages project s !! k = None \/
                 size (answer k s) = 0 \/
                 ready_of (answer k s) = inr false ->
                 backend s' !! k = backend s !! k)
  | Raise e s' =>
      messages s' = messages s /\
      exists k j, project_messages project s !! k = Some j /\
                  msg_ok ready_of (answer k s) = false /\
                  (e = Exc "KeyError" \/ ready_of (answer k s) = inl e)
  end.
Proof.
  intros Hen. unfold poll_tasks, tracked_ok, project_messages. run.
  destruct (messages s !! project) as [table|] eqn:Et; simpl.
  - pose proof (poll_loop_run (items table) (∅, false) s
                  (enumerates_NoDup items table Hen)) as H.
    destruct (for_fold (items table) round (∅, false) s) as [r s'|e s'].
    + destruct H as (Hok & Hm & Hb & Ha & Hin & Hflag & Hrel & Hkeep).
      cbn [fst snd] in *.
      split; [|split; [done|split; [done|split; [|split; [|split; [|split]]]]]].
      * intros k j Hk. apply (Hok k j). by apply enumerates_elem_of.
      * intros k Hk. rewrite Ha; [apply lookup_empty|].
        rewrite (enumerates_keys _ _ _ Hen), Hk. by intros [? ?].
      * intros k j Hk. apply (enumerates_elem_of _ _ _ _ Hen) in Hk.
        destruct (Hin k j Hk) as [Hz Hn]. split; [|exact Hn].
        intros Hsz. rewrite (Hz Hsz). apply lookup_empty.
      * rewrite Hflag. split.
        -- intros [H|(k & j & Hin' & H)]; [discriminate|].
           exists k, j. split; [by apply (enumerates_elem_of _ _ _ _ Hen)|done].
        -- intros (k & j & Hl & H). right. exists k, j.
           split; [by apply (enumerates_elem_of _ _ _ _ Hen)|done].
      * intros k Hk. apply Hrel. by apply (enumerates_keys _ _ _ Hen).
      * intros k [Hk|Hk]; apply Hkeep; [left|by right].
        rewrite (enumerates_keys _ _ _ Hen), Hk. by intros [? ?].
    + destruct H as (Hm & k & j & Hin & Hbad). split; [exact Hm|].
      exists k, j. split; [by apply (enumerates_elem_of _ _ _ _ Hen)|done].
  - split; [intros k j Hk; by rewrite lookup_empty in Hk|].
    do 3 (split; [done|]).
    split; [intros k j Hk; by rewrite lookup_empty in Hk|].
    split; [|split; [|done]].
    + split; [discriminate|]. intros (k & j & Hk & _).
      by rewrite lookup_empty in Hk.
    + intros k [j Hj]. by rewrite lookup_empty in Hj.
Qed.

(** [__poll_tasks] returns when it gets through the answers for all
    tracked tasks. *)
Lemma poll_tasks_returns project s :
  enumerates items ->
  tracked_ok unstored ready_of project s ->
  exists r s', poll_tasks py_str unstored ready_of items project s = Ok r s'.
Proof.
  intros Hen Hok. pose proof (poll_tasks_run project s Hen) as H.
  destruct (poll_tasks _ _ _ _ _ _) as [r s'|e s']; [by exists r, s'|].
  destruct H as (_ & k & j & Hk & Hbad & _).
  by rewrite (Hok k j Hk) in Hbad.
Qed.

End PollTasks.

(** ** [poll_worker_status] and [poll_status] *)

(** Preorder of [settles]. *)
#[local] Instance settles_preorder : PreOrder settles.
Proof.
  split.
  - intros s. split; reflexivity.
  - intros s1 s2 s3 [G12 B12] [G23 B23]. split; etransitivity; eassumption.
Qed.

Lemma backend_ensure p s : backend (ensure_messages p s) = backend s.
Proof. unfold ensure_messages. by destruct (messages s !! p). Qed.

Lemma settles_ensure p s : settles s (ensure_messages p s).
Proof.
  split; [|by rewrite backend_ensure].
  intros q k r H. by rewrite messages_ensure.
Qed.

Lemma settles_put_fresh p k r s :
  project_messages p s !! k = None -> settles s (put_message p k r (tick s)).
Proof.
  intros Hn. split; [|reflexivity].
  intros q k' r' H. destruct (decide (p = q)) as [<-|Hne].
  - rewrite messages_put_same, messages_tick.
    destruct (decide (k = k')) as [<-|Hk]; [congruence|].
    by rewrite lookup_insert_ne.
  - by rewrite messages_put_other, messages_tick.
Qed.

Lemma settles_forget k s : settles s (set_backend (delete k) s).
Proof. split; [by intros q k' r H|apply delete_subseteq]. Qed.

Lemma tracked_settles t s s' : tracked t s -> settles s s' -> tracked t s'.
Proof. intros T [G _]. eapply tracked_grows; eassumption. Qed.

Lemma subscript_found {V} (d : list (string * V)) key kv s :
  List.find (fun kv => String.eqb (fst kv) key) d = Some kv ->
  subscript (Some d) key s = Ok (snd kv) s.
Proof. intros H. unfold subscript. by rewrite H. Qed.

(** The tasks of a worker are among the active tasks of the reply. *)
Lemma tasks_of_active i active key t :
  i_active i = Some active -> t ∈ tasks_of active key -> t ∈ active_tasks i.
Proof.
  intros Ea. unfold tasks_of, active_tasks. rewrite Ea. simpl.
  destruct (List.find _ active) as [kv|] eqn:Ef; [|intros H; inversion H].
  intros Ht. apply find_some in Ef as [Hkv _].
  apply list_elem_of_In, in_concat. exists (snd kv).
  split; [by apply in_map|by apply list_elem_of_In].
Qed.

Lemma inspect_ok_finds i stats active scheduled :
  inspect_ok i = true ->
  i_stats i = Some stats -> i_active i = Some active ->
  i_scheduled i = Some scheduled ->
  forall key, key ∈ stats ->
    is_Some (List.find (fun kv => String.eqb (fst kv) key) active) /\
    is_Some (List.find (fun kv => String.eqb (fst kv) key) scheduled).
Proof.
  unfold inspect_ok. intros Hi Es Ea Esch key Hkey.
  rewrite Es, Ea, Esch in Hi.
  destruct stats as [|w stats]; [inversion Hkey|].
  rewrite forallb_forall in Hi.
  apply list_elem_of_In, Hi in Hkey.
  destruct (List.find _ active); [|discriminate].
  destruct (List.find _ scheduled); [|discriminate]. eauto.
Qed.

Section WorkerSweep.

Variable current_time : nat -> string.
Variable py_str : pyval -> string.
Variable unstored : gmap string pyval.
Variable ready_of : gmap string pyval -> exn + bool.
Variable items : gmap string status_record -> list (string * status_record).

Local Abbreviation answer := (get_task_meta unstored).

(** Where [ready()] returns for the task, [__add_worker_task] returns and
    leaves the task tracked; it adds a record and releases the result of
    its own task at most. *)
Lemma add_worker_task_run t s :
  returns (ready_of (answer (t_id t) s)) = true ->
  exists s',
    add_worker_task current_time unstored ready_of t s = Ok tt s' /\
    settles s s' /\ tracked t s' /\
    forall k, k <> t_id t -> spares k s s'.
Proof.
  intros Hr. unfold add_worker_task, ready, spares. run.
  set (s1 := ensure_messages (t_routing_key t) s).
  assert (H1 : settles s s1) by apply settles_ensure.
  assert (B1 : backend s1 = backend s) by apply backend_ensure.
  destruct (ready_of (answer (t_id t) s)) as [e|b] eqn:Er; [discriminate|].
  destruct (project_messages (t_routing_key t) s1 !! t_id t) as [r|] eqn:E.
  - rewrite (get_task_meta_frame unstored (t_id t) s s1), Er
      by (by rewrite B1).
    destruct b; (eexists; split; [reflexivity|]); split; [|split| |split].
    + etransitivity; [exact H1|apply settles_forget].
    + exists r. exact E.
    + intros k Hk. cbn. by rewrite lookup_delete_ne, B1.
    + exact H1.
    + exists r. exact E.
    + intros k Hk. by rewrite B1.
  - set (s2 := put_message (t_routing_key t) (t_id t)
                 (worker_record (t_name t) (current_time (clock s1)))
                 (tick s1)).
    assert (H2 : settles s1 s2) by (by apply settles_put_fresh).
    assert (B2 : backend s2 = backend s) by (by rewrite <- B1).
    assert (T : tracked t s2).
    { unfold tracked, s2. rewrite messages_put_same, lookup_insert_eq. eauto. }
    rewrite (get_task_meta_frame unstored (t_id t) s s2), Er
      by (by rewrite B2).
    destruct b; (eexists; split; [reflexivity|]); split; [|split| |split].
    + etransitivity; [exact H1|].
      etransitivity; [exact H2|apply settles_forget].
    + exact T.
    + intros k Hk. cbn -[s2]. by rewrite lookup_delete_ne, B2.
    + by etransitivity.
    + exact T.
    + intros k Hk. by rewrite B2.
Qed.

Lemma worker_task_eq project activeTasks t s :
  worker_task current_time unstored ready_of project activeTasks t s =
  match add_worker_task current_time unstored ready_of t s with
  | Ok _ s' =>
      Ok (if String.eqb (t_routing_key t) project
          then activeTasks ++ [t_id t] else activeTasks) s'
  | Raise e s' => Raise e s'
  end.
Proof. reflexivity. Qed.

(** The inner loop collects the ids of the project's tasks, in order, and
    leaves every task of the worker tracked. *)
Lemma worker_tasks_run project tasks :
  returns (ready_of unstored) = true ->
  forall activeTasks s,
    (forall t, t ∈ tasks -> returns (ready_of (answer (t_id t) s)) = true) ->
    exists s',
      for_fold tasks (worker_task current_time unstored ready_of project)
        activeTasks s
        = Ok (activeTasks ++ ids_of project tasks) s' /\
      settles s s' /\
      (forall t, t ∈ tasks -> tracked t s') /\
      forall k, (forall t, t ∈ tasks -> t_id t <> k) -> spares k s s'.
Proof.
  intros Hu. induction tasks as [|t tasks IH]; intros activeTasks s Hr.
  - exists s. unfold ids_of. cbn. rewrite app_nil_r.
    split; [reflexivity|]. split; [reflexivity|].
    split; [intros t Ht; inversion Ht|done].
  - destruct (add_worker_task_run t s) as (s1 & E1 & S1 & T1 & F1).
    { apply Hr, elem_of_cons. by left. }
    cbn [for_fold]. run. rewrite worker_task_eq, E1.
    destruct (IH (if String.eqb (t_routing_key t) project
                  then activeTasks ++ [t_id t] else activeTasks) s1)
      as (s2 & E2 & S2 & T2 & F2).
    { intros t' Ht'.
      destruct (get_task_meta_released unstored (t_id t') s s1 (proj2 S1))
        as [-> | ->]; [|exact Hu].
      apply Hr, elem_of_cons. by right. }
    exists s2. split; [|split; [|split]].
    + rewrite E2. f_equal. unfold ids_of. cbn [List.filter].
      destruct (String.eqb (t_routing_key t) project); [|reflexivity].
      cbn [map]. by rewrite <- app_assoc.
    + by etransitivity.
    + intros t' Ht'. apply elem_of_cons in Ht' as [->|Ht']; [|by apply T2].
      eapply tracked_settles; eassumption.
    + intros k Hk. unfold spares in *. rewrite F2, F1; [done|..].
      * intros ->. apply (Hk t); [apply elem_of_cons; by left|done].
      * intros t' Ht'. apply Hk, elem_of_cons. by right.
Qed.

Lemma worker_round_run i project active scheduled workerStatus key kv kv' s :
  i_active i = Some active -> i_scheduled i = Some scheduled ->
  List.find (fun kv => String.eqb (fst kv) key) active = Some kv ->
  List.find (fun kv => String.eqb (fst kv) key) scheduled = Some kv' ->
  active_ok unstored ready_of i s ->
  exists s',
    worker_round current_time unstored ready_of i project workerStatus key s
      = Ok (<[worker_name key := snapshot_entry project active scheduled key]>
              workerStatus) s' /\
    settles s s' /\
    (forall t, t ∈ tasks_of active key -> tracked t s') /\
    forall k, (forall t, t ∈ active_tasks i -> t_id t <> k) -> spares k s s'.
Proof.
  intros Ea Es Fa Fs [Hu Hr].
  assert (Hin : forall t, t ∈ snd kv -> t ∈ active_tasks i).
  { intros t Ht. apply (tasks_of_active i active key t Ea).
    unfold tasks_of. by rewrite Fa. }
  destruct (worker_tasks_run project (snd kv) Hu [] s) as (s' & E & S & T & F).
  { intros t Ht. by apply Hr, Hin. }
  exists s'. split; [|split; [exact S|split]].
  - unfold worker_round. run. rewrite Ea, Es.
    rewrite (subscript_found _ _ _ _ Fa), E, (subscript_found _ _ _ _ Fs).
    unfold snapshot_entry, tasks_of, scheduled_of. by rewrite Fa, Fs.
  - unfold tasks_of. by rewrite Fa.
  - intros k Hk. apply F. intros t Ht. by apply Hk, Hin.
Qed.

Lemma worker_rounds_run i project active scheduled stats :
  i_active i = Some active -> i_scheduled i = Some scheduled ->
  (forall key, key ∈ stats ->
     is_Some (List.find (fun kv => String.eqb (fst kv) key) active) /\
     is_Some (List.find (fun kv => String.eqb (fst kv) key) scheduled)) ->
  forall workerStatus s,
    active_ok unstored ready_of i s ->
    exists s',
      for_fold stats (worker_round current_time unstored ready_of i project)
        workerStatus s
        = Ok (foldl (fun ws key =>
                       <[worker_name key :=
                           snapshot_entry project active scheduled key]> ws)
                    workerStatus stats) s' /\
      settles s s' /\
      (forall key t, key ∈ stats -> t ∈ tasks_of active key -> tracked t s') /\
      forall k, (forall t, t ∈ active_tasks i -> t_id t <> k) -> spares k s s'.
Proof.
  intros Ea Es. induction stats as [|key stats IH]; intros Hfind ws s Hok.
  - exists s. split; [reflexivity|]. split; [reflexivity|].
    split; [intros key t Hk; inversion Hk|done].
  - destruct (Hfind key) as [[kv Fa] [kv' Fs]]; [apply elem_of_cons; by left|].
    destruct (worker_round_run i project active scheduled ws key kv kv' s
                Ea Es Fa Fs Hok) as (s1 & E1 & S1 & T1 & F1).
    destruct (IH (fun k Hk => Hfind k (proj2 (elem_of_cons stats k key)
                                         (or_intror Hk)))
                 (<[worker_name key :=
                      snapshot_entry project active scheduled key]> ws) s1
                 (active_ok_subseteq unstored ready_of i s s1 (proj2 S1) Hok))
      as (s2 & E2 & S2 & T2 & F2).
    exists s2. split; [|split; [|split]].
    + cbn [for_fold foldl]. run. rewrite E1. exact E2.
    + by etransitivity.
    + intros k t Hk Ht. apply elem_of_cons in Hk as [->|Hk]; [|by eapply T2].
      eapply tracked_settles; [by apply T1|exact S2].
    + intros k Hk. unfold spares in *. rewrite (F2 k Hk). by apply F1.
Qed.



(** [poll_status] from its three steps. *)
Lemma poll_status_eq i project s :
  poll_status current_time py_str unstored ready_of items i project s =
  match poll_tasks py_str unstored ready_of items project s with
  | Raise e s1 => Raise e s1
  | Ok r s1 =>
      if negb (snd r) then
        match poll_worker_status current_time unstored ready_of i project s1
        with
        | Raise e s2 => Raise e s2
        | Ok _ s2 =>
            match poll_tasks py_str unstored ready_of items project s2 with
            | Raise e s3 => Raise e s3
            | Ok r' s3 => Ok (fst r') s3
            end
        end
      else Ok (fst r) s1
  end.
Proof.
  unfold poll_status. run.
  destruct (poll_tasks _ _ _ _ project s) as [r s1|]; [|reflexivity].
  destruct (snd r); [reflexivity|]. cbn [negb].
  destruct (poll_worker_status _ _ _ _ _ _); [|reflexivity].
  destruct (poll_tasks _ _ _ _ _ _); reflexivity.
Qed.

End WorkerSweep.



(** The three cases of the failure check of [__poll_tasks]. *)
Lemma poll_entry_meta py_str job msg status entry :
  msg !! "status" = Some status ->
  poll_entry py_str job msg = inr entry ->
  r_type entry = r_type job /\
  r_submitted entry = r_submitted job /\
  r_status entry = status /\
  (status = VStr FAILURE ->
     forall detail, msg !! "meta" = Some detail ->
       r_meta entry = message_dict (html_escape (py_str detail))) /\
  (status = VStr FAILURE -> msg !! "meta" = None ->
     r_meta entry = message_dict "an unknown error occurred") /\
  (status <> VStr FAILURE ->
     forall payload, msg !! "result" = Some payload ->
       r_meta entry = payload).
Proof.
  intros Hs. unfold poll_entry. rewrite Hs.
  destruct (eq_str status FAILURE) eqn:Ef.
  - apply eq_str_true in Ef.
    destruct (msg !! "meta") as [detail|]; intros [= <-]; cbn;
      repeat split; try done; congruence.
  - apply eq_str_false in Ef.
    destruct (msg !! "result") as [payload|]; [|discriminate].
    intros [= <-]; cbn. repeat split; try done; congruence.
Qed.

(** C2, as the code has it.  For a tracked task whose status the backend
    reports, the poll puts an entry into the status map it returns, and
    leaves [self.messages] as it was: the local record is not written.
    The entry carries the type and submission time of the local record
    and the reported status.  If the status is [FAILURE], its meta is
    [{'message': m}] where [m] is the HTML-escaped rendering of the
    failure detail when there is one, so that [m] contains neither [<]
    nor [>] and a detail rendered as <script> gives &lt;script&gt;, and
    "an unknown error occurred" when there is none; for every other status
    the meta is the raw result payload. *)
Theorem poll_failure_meta py_str unstored ready_of items project key job msg
    status s :
  enumerates items ->
  tracked_ok unstored ready_of project s ->
  project_messages project s !! key = Some job ->
  get_task_meta unstored key s = msg ->
  msg !! "status" = Some status ->
  exists statuses ongoing s' entry,
    poll_tasks py_str unstored ready_of items project s
      = Ok (statuses, ongoing) s' /\
    messages s' = messages s /\
    statuses !! key = Some entry /\
    r_type entry = r_type job /\
    r_submitted entry = r_submitted job /\
    r_status entry = status /\
    (status = VStr FAILURE ->
       forall detail, msg !! "meta" = Some detail ->
         r_meta entry = message_dict (html_escape (py_str detail)) /\
         occurs "<"%char (html_escape (py_str detail)) = false /\
         occurs ">"%char (html_escape (py_str detail)) = false /\
         (py_str detail = "<script>" ->
            r_meta entry = message_dict "&lt;script&gt;")) /\
    (status = VStr FAILURE -> msg !! "meta" = None ->
       r_meta entry = message_dict "an unknown error occurred") /\
    (status <> VStr FAILURE ->
       forall payload, msg !! "result" = Some payload ->
         r_meta entry = payload).
Proof.
  intros Hen Hok Hjob Hmeta Hstatus.
  pose proof (poll_tasks_run py_str unstored ready_of items project s Hen)
    as H.
  destruct (poll_tasks_returns py_str unstored ready_of items project s Hen
              Hok) as ([statuses ongoing] & s' & E).
  rewrite E in H. cbn [fst snd] in H.
  destruct H as (_ & Hm & _ & _ & Hin & _).
  destruct (Hin key job Hjob) as [_ Hn]. rewrite Hmeta in Hn.
  destruct Hn as (entry & He & Hl).
  { intros Hz. apply map_size_empty_inv in Hz.
    by rewrite Hz, lookup_empty in Hstatus. }
  destruct (poll_entry_meta py_str job msg status entry Hstatus He)
    as (Ht & Hsub & Hst & Hf & Hu & Hr).
  exists statuses, ongoing, s', entry.
  do 6 (split; [done|]). split; [|by split].
  intros Hfail detail Hd.
  destruct (html_escape_no_markup (py_str detail)) as (Hlt & Hgt & _).
  split; [by apply Hf|]. do 2 (split; [done|]).
  intros Hscript. rewrite (Hf Hfail detail Hd), Hscript. reflexivity.
Qed.

(* ===================================================================== *)
(** * The theorems at concrete inputs                                     *)
(* ===================================================================== *)

(** Boolean checks of the conditions for concrete inputs. *)
Lemma backend_ok_check unstored ready_of s :
  msg_ok ready_of unstored = true ->
  forallb (fun kv => msg_ok ready_of (snd kv)) (map_to_list (backend s))
    = true ->
  backend_ok unstored ready_of s.
Proof.
  intros Hu H. split; [exact Hu|]. intros key msg Hl.
  rewrite forallb_forall in H.
  apply (H (key, msg)), list_elem_of_In. by apply elem_of_map_to_list.
Qed.

Lemma active_ok_check unstored ready_of i s :
  returns (ready_of unstored) = true ->
  forallb (fun t => returns (ready_of (get_task_meta unstored (t_id t) s)))
          (active_tasks i) = true ->
  active_ok unstored ready_of i s.
Proof.
  intros Hu H. split; [exact Hu|]. intros t Ht.
  rewrite forallb_forall in H. by apply H, list_elem_of_In.
Qed.


Lemma enumerates_map_to_list : enumerates map_to_list.
Proof. intros table. reflexivity. Qed.

Lemma strokes_inj a : forall b, strokes a = strokes b -> a = b.
Proof.
  induction a as [|a IH]; intros [|b] H; try discriminate; [reflexivity|].
  injection H as H. f_equal. by apply IH.
Qed.

Lemma poll_failure_meta_witness :
  exists statuses ongoing s' entry,
    poll_tasks render_text celery_unstored celery_ready map_to_list
      "projA" registered_state = Ok (statuses, ongoing) s' /\
    messages s' = messages registered_state /\
    statuses !! "c1" = Some entry /\
    r_meta entry = message_dict "&lt;script&gt;".
Proof.
  destruct (poll_failure_meta render_text celery_unstored celery_ready
              map_to_list "projA" "c1"
              (registered_record "train" (noon 0)) failed_c1 (VStr FAILURE)
              registered_state)
    as (statuses & ongoing & s' & entry & E & Hm & Hl & _ & _ & _ & Hf & _).
  - apply enumerates_map_to_list.
  - apply backend_ok_tracked, backend_ok_check; vm_compute; reflexivity.
  - vm_compute. reflexivity.
  - vm_compute. reflexivity.
  - vm_compute. reflexivity.
  - exists statuses, ongoing, s', entry. split; [exact E|].
    split; [exact Hm|]. split; [exact Hl|].
    apply (Hf eq_refl (VStr "<script>")); vm_compute; reflexivity.
Defined.

(** C2 as stated fails: the backend reports the failure of the tracked
    task [c1] with a detail, [__poll_tasks] and [poll_status] return, and
    the Status Record of [c1] in [self.messages] is the one
    [register_job] made, its status [PENDING] and its meta
    [{'message': 'sending job to worker'}]. *)
Lemma poll_leaves_failed_record :
  let o := poll_tasks render_text celery_unstored celery_ready map_to_list
             "projA" registered_state in
  let o' := poll_status noon render_text celery_unstored celery_ready
              map_to_list one_worker "projA" registered_state in
  get_task_meta celery_unstored "c1" registered_state !! "status"
    = Some (VStr FAILURE) /\
  get_task_meta celery_unstored "c1" registered_state !! "meta"
    = Some (VStr "<script>") /\
  returned o = true /\ returned o' = true /\
  project_messages "projA" (final o) !! "c1"
    = Some (registered_record "train" (noon 0)) /\
  project_messages "projA" (final o') !! "c1"
    = Some (registered_record "train" (noon 0)) /\
  r_status (registered_record "train" (noon 0)) = VStr PENDING /\
  r_meta (registered_record "train" (noon 0))
    = message_dict "sending job to worker".
Proof. repeat split; vm_compute; reflexivity. Qed.



Lemma task_ongoing_spec_witness :
  exists b,
    task_ongoing noon one_worker "projA" "train" registered_state
      = Ok b (final (pollNow noon one_worker registered_state)) /\
    (b = true <->
     exists key r,
       project_messages "projA"
         (final (pollNow noon one_worker registered_state)) !! key = Some r /\
       r_type r = "train" /\
       r_status r <> VStr SUCCESS /\ r_status r <> VStr FAILURE) /\
    (project_messages "projA"
       (final (pollNow noon one_worker registered_state)) = ∅ -> b = false).
Proof.
  apply (proj1 (task_ongoing_spec noon one_worker "projA" "train"
                  registered_state)).
  vm_compute. reflexivity.
Defined.

Lemma register_job_group_witness :
  exists s',
    register_job noon "projA" group_job "train" None
      (MessageProcessor.init ∅) = Ok tt s' /\
    size (project_messages "projA" s') = 2.
Proof.
  destruct (register_job_group noon "projA" group_job "train" None
              ["c1"; "c2"] (MessageProcessor.init ∅) eq_refl)
    as (s' & E & _ & _ & _ & _ & Hsize).
  exists s'. split; [exact E|].
  apply (Hsize "c1" "c2" eq_refl);
    [discriminate|vm_compute; reflexivity|vm_compute; reflexivity].
Defined.

Lemma register_job_own_record_witness :
  exists s',
    register_job noon "projA" single_job "inference" None
      (MessageProcessor.init ∅) = Ok tt s' /\
    size (project_messages "projA" s') = 1 /\
    exists s'',
      register_job noon "projA" single_job "train" (Some 7) s' = Ok tt s'' /\
      messages s'' = messages s'.
Proof.
  destruct (register_job_own_record noon "projA" single_job "inference" None
              (MessageProcessor.init ∅) eq_refl)
    as (s' & E & Hnew & _ & _ & Hagain).
  exists s'. split; [exact E|]. split.
  - apply (proj2 (Hnew eq_refl)).
  - apply (Hagain single_job "train" (Some 7)); reflexivity.
Defined.

Lemma task_id_fresh_witness :
  exists id s',
    task_id strokes
      (S (length (project_jobs "projA" registered_state)))
      "projA" registered_state = Ok (Some id) s'.
Proof.
  apply (proj2 (task_id_fresh strokes "projA" registered_state)).
  intros a b. apply strokes_inj.
Defined.

Lemma pollNow_twice_witness :
  pollNow noon one_worker
    (final (pollNow noon one_worker (MessageProcessor.init ∅)))
  = Ok tt (final (pollNow noon one_worker (MessageProcessor.init ∅))).
Proof.
  apply (proj2 (proj2 (pollNow_twice noon one_worker
                         (MessageProcessor.init ∅)))).
  vm_compute. reflexivity.
Defined.

(** The sweep records a task reported twice once, and a second sweep adds
    nothing. *)
Example pollNow_one_worker :
  let s1 := final (pollNow noon one_worker (MessageProcessor.init ∅)) in
  map job_id (project_jobs "projA" s1) = ["a1"; "a2"] /\
  size (project_messages "projA" s1) = 2 /\
  final (pollNow noon one_worker s1) = s1.
Proof. repeat split; vm_compute; reflexivity. Qed.

(** The snapshot [poll_worker_status] builds: the worker name without its
    [celery@] prefix, the ids of the project's active tasks in the order
    reported, the scheduled tasks as they came. *)
Example poll_worker_status_one_worker :
  let o := poll_worker_status noon celery_unstored celery_ready one_worker
             "projA" (MessageProcessor.init ∅) in
  o = Ok {["w1" := (["a1"; "a2"; "a1"], VList [])]} (final o) /\
  size (project_messages "projA" (final o)) = 2 /\
  jobs (final o) = ∅.
Proof. repeat split; vm_compute; reflexivity. Qed.

(** Where the library's part matters: for a backend that answers the
    empty dict for a task it has nothing stored for, [ready()] raises
    [KeyError] on the first active task, after its record was made. *)
Example poll_worker_status_empty_answers :
  let o := poll_worker_status noon ∅ celery_ready one_worker
             "projA" (MessageProcessor.init ∅) in
  o = Raise (Exc "KeyError") (final o) /\
  size (project_messages "projA" (final o)) = 1.
Proof. repeat split; vm_compute; reflexivity. Qed.

(** After statistics, an [active()] reply of [None] has its [keys()]
    asked for in [pollNow]. *)
Example pollNow_partial_reply :
  pollNow noon partial_reply registered_state
  = Raise (Exc "AttributeError") registered_state.
Proof. vm_compute. reflexivity. Qed.

(* ===================================================================== *)
(** * What the methods preserve                                           *)
(* ===================================================================== *)

(** ** Computations that move the state along a preorder *)

Section Keeps.

Context (R : relation state) `{!PreOrder R}.

Lemma keeps_ret {A} (a : A) : keeps R (ret a).
Proof. intros s. reflexivity. Qed.

Lemma keeps_raise {A} (e : exn) : keeps R (raise (A := A) e).
Proof. intros s. reflexivity. Qed.

Lemma keeps_get : keeps R get.
Proof. intros s. reflexivity. Qed.

Lemma keeps_modify (f : state -> state) :
  (forall s, R s (f s)) -> keeps R (modify f).
Proof. intros H s. apply H. Qed.

Lemma keeps_bind {A B} (m : M A) (k : A -> M B) :
  keeps R m -> (forall a, keeps R (k a)) -> keeps R (m ≫= k).
Proof.
  intros Hm Hk s. specialize (Hm s). run.
  destruct (m s) as [a s1|e s1]; cbn [final] in *; [|exact Hm].
  etransitivity; [exact Hm|apply Hk].
Qed.

Lemma keeps_for_each {A} (body : A -> M unit) l :
  (forall x, keeps R (body x)) -> keeps R (for_each l body).
Proof.
  intros H. induction l as [|x l IH]; cbn [for_each].
  - apply keeps_ret.
  - apply keeps_bind; [apply H|intros _; exact IH].
Qed.

Lemma keeps_for_fold {A B} (body : B -> A -> M B) l :
  (forall b x, keeps R (body b x)) -> forall b, keeps R (for_fold l body b).
Proof.
  intros H. induction l as [|x l IH]; intros b; cbn [for_fold].
  - apply keeps_ret.
  - apply keeps_bind; [apply H|intros b'; apply IH].
Qed.

Lemma keeps_subscript {V} (d : option (list (string * V))) key :
  keeps R (subscript d key).
Proof.
  unfold subscript. destruct d as [l|]; [|apply keeps_raise].
  destruct (List.find _ l); [apply keeps_ret|apply keeps_raise].
Qed.

Lemma keeps_ready unstored ready_of key :
  keeps R (ready unstored ready_of key).
Proof. intros s. unfold ready. destruct (ready_of _); reflexivity. Qed.

End Keeps.

(** ** The preorders *)

#[local] Instance fresh_pending_preorder : PreOrder fresh_pending.
Proof.
  split.
  - intros s p k r H. by left.
  - intros s1 s2 s3 H12 H23 p k r H.
    destruct (H23 p k r H) as [H2|H2]; [by apply H12|by right].
Qed.

#[local] Instance evolves_preorder : PreOrder evolves.
Proof.
  split.
  - intros s. split; [|split]; reflexivity.
  - intros s1 s2 s3 (J12 & D12 & F12) (J23 & D23 & F23).
    split; [|split].
    + intros p. etransitivity; [apply J12|apply J23].
    + intros p. etransitivity; [apply D12|apply D23].
    + etransitivity; eassumption.
Qed.

#[local] Instance polls_preorder : PreOrder polls.
Proof.
  split.
  - intros s. unfold polls. repeat split; reflexivity.
  - intros s1 s2 s3 (J12 & C12 & B12 & U12 & S12) (J23 & C23 & B23 & U23 & S23).
    unfold polls. repeat split; try congruence.
    + intros p k r H. by apply S23, S12.
    + etransitivity; [apply S23|apply S12].
Qed.

#[local] Instance paired_preorder : PreOrder paired.
Proof.
  split.
  - intros s p. reflexivity.
  - intros s1 s2 s3 H12 H23 p. specialize (H12 p). specialize (H23 p). lia.
Qed.

(** A step that leaves both stores alone. *)
Lemma evolves_same s s' :
  jobs s' = jobs s -> messages s' = messages s -> evolves s s'.
Proof.
  intros Hj Hm. unfold evolves, fresh_pending, project_jobs, project_messages.
  rewrite Hj, Hm. split; [|split]; try done. intros p k r H. by left.
Qed.

Lemma evolves_ensure p s : evolves s (ensure_messages p s).
Proof.
  unfold evolves, fresh_pending. split; [|split].
  - intros q. unfold project_jobs, ensure_messages.
    by destruct (messages s !! p).
  - intros q. by rewrite messages_ensure.
  - intros q k r. rewrite messages_ensure. by left.
Qed.

Lemma evolves_put p k r s :
  r_status r = VStr PENDING -> evolves s (put_message p k r s).
Proof.
  intros Hr. split; [|split].
  - intros q. reflexivity.
  - intros q. destruct (decide (p = q)) as [<-|Hne].
    + rewrite messages_put_same, dom_insert. set_solver.
    + by rewrite messages_put_other.
  - intros q k' r' H. destruct (decide (p = q)) as [<-|Hne].
    + rewrite messages_put_same in H.
      destruct (decide (k = k')) as [<-|Hk].
      * rewrite lookup_insert_eq in H. injection H as <-. by right.
      * rewrite lookup_insert_ne in H by done. by left.
    + rewrite messages_put_other in H by done. by left.
Qed.

Lemma jobs_append_same p j s :
  project_jobs p (append_job p j s) = project_jobs p s ++ [j].
Proof. unfold project_jobs, append_job; cbn. by rewrite lookup_insert_eq. Qed.

Lemma jobs_append_other p q j s :
  p <> q -> project_jobs q (append_job p j s) = project_jobs q s.
Proof.
  intros Hne. unfold project_jobs, append_job; cbn.
  by rewrite lookup_insert_ne.
Qed.

Lemma evolves_append p j s : evolves s (append_job p j s).
Proof.
  split; [|split].
  - intros q. destruct (decide (p = q)) as [<-|Hne].
    + rewrite jobs_append_same. by apply prefix_app_r.
    + by rewrite jobs_append_other.
  - intros q. reflexivity.
  - intros q k r H. by left.
Qed.

Section Evolves.

Variable current_time : nat -> string.
Variable uuid1 : nat -> string.
Variable py_str : pyval -> string.
Variable unstored : gmap string pyval.
Variable ready_of : gmap string pyval -> exn + bool.
Variable items : gmap string status_record -> list (string * status_record).

Lemma keeps_evolves_now : keeps evolves (now current_time).
Proof. intros s. by apply evolves_same. Qed.

Lemma keeps_evolves_forget k : keeps evolves (forget k).
Proof. intros s. by apply evolves_same. Qed.

Lemma keeps_evolves_add_worker_task t :
  keeps evolves (add_worker_task current_time unstored ready_of t).
Proof.
  unfold add_worker_task.
  apply keeps_bind; [tc_solve| |intros _].
  { apply keeps_modify. apply evolves_ensure. }
  apply keeps_bind; [tc_solve|apply keeps_get; tc_solve|intros s1].
  apply keeps_bind; [tc_solve| |intros _].
  { destruct (project_messages _ s1 !! t_id t); [apply keeps_ret; tc_solve|].
    apply keeps_bind; [tc_solve|apply keeps_evolves_now|intros ts].
    apply keeps_modify. intros s. by apply evolves_put. }
  apply keeps_bind; [tc_solve|apply keeps_ready; tc_solve|intros [|]];
    [apply keeps_evolves_forget|apply keeps_ret; tc_solve].
Qed.

End Evolves.

(** Splits a computation into its steps. *)
Ltac keeps_step :=
  first
    [ apply keeps_ret; tc_solve
    | apply keeps_raise; tc_solve
    | apply keeps_get; tc_solve
    | apply keeps_subscript; tc_solve
    | apply keeps_ready; tc_solve
    | apply keeps_bind; [tc_solve| |intros ?]
    | apply keeps_for_each; [tc_solve|intros ?]
    | apply keeps_for_fold; [tc_solve|intros ? ?]
    | match goal with
      | |- keeps _ (match ?x with _ => _ end) => destruct x
      end ].

Section EvolvesMethods.

Variable current_time : nat -> string.
Variable uuid1 : nat -> string.
Variable py_str : pyval -> string.
Variable unstored : gmap string pyval.
Variable ready_of : gmap string pyval -> exn + bool.
Variable items : gmap string status_record -> list (string * status_record).

Lemma keeps_evolves_modify_same (f : state -> state) :
  (forall s, jobs (f s) = jobs s) -> (forall s, messages (f s) = messages s) ->
  keeps evolves (modify f).
Proof. intros Hj Hm. apply keeps_modify. intros s. by apply evolves_same. Qed.

(** The elementary updates the methods are made of. *)
Ltac evolves_prim :=
  first
    [ apply keeps_evolves_now
    | apply keeps_evolves_forget
    | apply keeps_modify, evolves_ensure
    | apply keeps_modify, evolves_append
    | apply keeps_modify; intros ?; by apply evolves_put
    | by apply keeps_evolves_modify_same
    | intros ?; by apply evolves_same ].

Lemma keeps_evolves_poll_worker_status i project :
  keeps evolves (poll_worker_status current_time unstored ready_of i project).
Proof.
  unfold poll_worker_status, worker_round, worker_task.
  repeat keeps_step; evolves_prim.
Qed.

Lemma keeps_evolves_poll_tasks project :
  keeps evolves (poll_tasks py_str unstored ready_of items project).
Proof.
  unfold poll_tasks. repeat keeps_step.
  unfold poll_task. repeat keeps_step; evolves_prim.
Qed.

Lemma keeps_evolves_poll_status i project :
  keeps evolves
    (poll_status current_time py_str unstored ready_of items i project).
Proof.
  unfold poll_status. keeps_step; [apply keeps_evolves_poll_tasks|].
  keeps_step; [|keeps_step]. keeps_step.
  - apply keeps_evolves_poll_worker_status.
  - keeps_step; [apply keeps_evolves_poll_tasks|keeps_step].
Qed.

Lemma keeps_evolves_register_job project j taskType cb :
  keeps evolves (register_job current_time project j taskType cb).
Proof.
  unfold register_job, register_child.
  repeat keeps_step; evolves_prim.
Qed.

Lemma keeps_evolves_task_id fuel project :
  keeps evolves (task_id uuid1 fuel project).
Proof.
  induction fuel as [|fuel IH]; cbn [task_id]; [keeps_step|].
  keeps_step; [evolves_prim|].
  repeat first [exact IH | keeps_step].
Qed.

Lemma keeps_evolves_pollNow i : keeps evolves (pollNow current_time i).
Proof.
  unfold pollNow, pollNow_task. repeat keeps_step; evolves_prim.
Qed.

Lemma keeps_evolves_task_ongoing i project taskType :
  keeps evolves (task_ongoing current_time i project taskType).
Proof.
  unfold task_ongoing. keeps_step; [apply keeps_evolves_pollNow|].
  repeat keeps_step.
Qed.

(** Every call, and every step of the workers, moves the state along
    [evolves]. *)
Lemma exec_evolves c s :
  evolves s (exec current_time uuid1 py_str unstored ready_of items c s).
Proof.
  destruct c; cbn [exec].
  - apply keeps_evolves_register_job.
  - apply keeps_evolves_task_id.
  - apply keeps_evolves_poll_worker_status.
  - apply keeps_evolves_poll_status.
  - apply keeps_evolves_task_ongoing.
  - apply keeps_evolves_pollNow.
  - by apply evolves_same.
Qed.

Lemma calls_evolve calls :
  forall s,
    evolves s
      (foldl (fun s c =>
                exec current_time uuid1 py_str unstored ready_of items c s)
             s calls).
Proof.
  induction calls as [|c calls IH]; intros s; cbn [foldl]; [reflexivity|].
  etransitivity; [apply exec_evolves|apply IH].
Qed.

End EvolvesMethods.

(** X1.  The status of a local record never leaves [PENDING]: after any
    sequence of calls on a new tracker, interleaved with any changes of
    the result backend, every record in [self.messages] has status
    [PENDING].  The polls report the backend's status in the map they
    return and do not write it back. *)
Theorem records_stay_pending current_time uuid1 py_str unstored ready_of items
    b calls p k r :
  project_messages p
    (after_calls current_time uuid1 py_str unstored ready_of items b calls)
    !! k = Some r ->
  r_status r = VStr PENDING.
Proof.
  intros H.
  destruct (calls_evolve current_time uuid1 py_str unstored ready_of items calls
              (MessageProcessor.init b)) as (_ & _ & F).
  destruct (F p k r H) as [H0|H0]; [|exact H0].
  unfold project_messages in H0. cbn in H0. by rewrite lookup_empty in H0.
Qed.

(** X2.  No call removes anything: whatever a call does, and whether it
    returns or raises, each project's job list afterwards starts with the
    job list of before, and every task id that had a record still has
    one. *)
Theorem nothing_removed current_time uuid1 py_str unstored ready_of items
    calls s p :
  let s' :=
    foldl (fun s c =>
             exec current_time uuid1 py_str unstored ready_of items c s)
          s calls in
  project_jobs p s `prefix_of` project_jobs p s' /\
  dom (project_messages p s) ⊆ dom (project_messages p s').
Proof.
  cbn zeta.
  destruct (calls_evolve current_time uuid1 py_str unstored ready_of items
              calls s) as (J & D & _).
  by split.
Qed.

(** ** [task_ongoing] on the states the tracker reaches *)

Lemma after_calls_pending current_time uuid1 py_str unstored ready_of items
    b calls :
  all_pending
    (after_calls current_time uuid1 py_str unstored ready_of items b calls).
Proof.
  intros p k r H.
  destruct (calls_evolve current_time uuid1 py_str unstored ready_of items calls
              (MessageProcessor.init b)) as (_ & _ & F).
  destruct (F p k r H) as [H0|H0]; [|exact H0].
  unfold project_messages in H0. cbn in H0. by rewrite lookup_empty in H0.
Qed.

Lemma all_pending_evolves s s' :
  evolves s s' -> all_pending s -> all_pending s'.
Proof.
  intros (_ & _ & F) Hs p k r H.
  destruct (F p k r H) as [H0|H0]; [by apply (Hs p k)|exact H0].
Qed.

(** What [task_ongoing] answers, on the state its sweep leaves. *)
Lemma task_ongoing_run current_time i project taskType s s' :
  pollNow current_time i s = Ok tt s' ->
  task_ongoing current_time i project taskType s =
  Ok (existsb (fun kr => ongoing_record taskType (snd kr))
              (map_to_list (project_messages project s'))) s'.
Proof.
  intros E. unfold task_ongoing, project_messages. run. rewrite E.
  destruct (messages s' !! project); simpl; [reflexivity|].
  by rewrite map_to_list_empty.
Qed.

Lemma existsb_map_to_list {A} (f : A -> bool) (m : gmap string A) :
  existsb (fun kr => f (snd kr)) (map_to_list m) = true <->
  exists k r, m !! k = Some r /\ f r = true.
Proof.
  rewrite existsb_exists. split.
  - intros ([k r] & Hin & Hf). exists k, r. split; [|exact Hf].
    apply elem_of_map_to_list. by apply list_elem_of_In.
  - intros (k & r & Hl & Hf). exists (k, r). split; [|exact Hf].
    apply list_elem_of_In. by apply elem_of_map_to_list.
Qed.

(** X3.  On a tracker that has only been used through its methods,
    [task_ongoing] does not see tasks finish: whenever its sweep returns,
    it answers true exactly when the project has a record of the given
    type, whatever status the result backend holds for the task. *)
Theorem task_ongoing_ignores_backend current_time uuid1 py_str unstored
    ready_of items b calls i project taskType s' :
  pollNow current_time i
    (after_calls current_time uuid1 py_str unstored ready_of items b calls)
    = Ok tt s' ->
  exists answer,
    task_ongoing current_time i project taskType
      (after_calls current_time uuid1 py_str unstored ready_of items b calls)
    = Ok answer s' /\
    (answer = true <->
     exists key r,
       project_messages project s' !! key = Some r /\ r_type r = taskType).
Proof.
  intros E. rewrite (task_ongoing_run _ _ _ _ _ _ E).
  eexists. split; [reflexivity|].
  assert (Hp : all_pending s').
  { eapply all_pending_evolves; [|apply after_calls_pending].
    pose proof (keeps_evolves_pollNow current_time i
                  (after_calls current_time uuid1 py_str unstored ready_of
                     items b calls)) as H.
    by rewrite E in H. }
  rewrite existsb_map_to_list. split.
  - intros (k & r & Hl & Hr). apply ongoing_record_true in Hr as [Ht _].
    by exists k, r.
  - intros (k & r & Hl & Ht). exists k, r. split; [exact Hl|].
    apply ongoing_record_true. rewrite (Hp _ _ _ Hl).
    split; [exact Ht|]. split; discriminate.
Qed.

(** ** The bookkeeping of [register_job] *)

#[local] Instance writes_records_preorder : PreOrder writes_records.
Proof.
  split.
  - intros s. unfold writes_records. by repeat split.
  - intros s1 s2 s3 (J1 & C1 & B1 & K1 & U1) (J2 & C2 & B2 & K2 & U2).
    unfold writes_records. repeat split; congruence.
Qed.

Lemma register_children_writes current_time project taskType children :
  keeps writes_records
    (for_each children (register_child current_time project taskType)).
Proof.
  apply keeps_for_each; [tc_solve|]. intros child s.
  unfold writes_records. by repeat split.
Qed.

Lemma register_children_known current_time project taskType children :
  forall s,
    is_Some (messages s !! project) ->
    is_Some (messages
               (final (for_each children
                         (register_child current_time project taskType) s))
             !! project).
Proof.
  induction children as [|c children IH]; intros s Hs; [exact Hs|].
  cbn [for_each]. unfold register_child at 1. run. apply IH.
  cbn. rewrite lookup_insert_eq. eauto.
Qed.

(** X4.  Whatever the job, [register_job] returns; it puts the job at the
    end of [jobs[project]] and leaves the lists of the other projects,
    stores the callback under the job's id in place of any earlier one,
    sends exactly one [add_projects] broadcast, makes sure the project has
    a message table, and does not touch the result backend. *)
Theorem register_job_bookkeeping current_time project j taskType cb s :
  exists s',
    register_job current_time project j taskType cb s = Ok tt s' /\
    project_jobs project s' = project_jobs project s ++ [j] /\
    (forall q, q <> project -> project_jobs q s' = project_jobs q s) /\
    on_complete s' = <[job_id j := cb]> (on_complete s) /\
    broadcasts s' = broadcasts s ++ ["add_projects"] /\
    is_Some (messages s' !! project) /\
    backend s' = backend s.
Proof.
  set (s1 := send "add_projects"
               (ensure_messages project (append_job project j s))).
  assert (Hj : forall q,
             project_jobs q s1 = project_jobs q (append_job project j s)).
  { intros q. unfold s1, project_jobs, ensure_messages.
    by destruct (messages (append_job project j s) !! project). }
  assert (Hc : on_complete s1 = on_complete s).
  { unfold s1, ensure_messages.
    by destruct (messages (append_job project j s) !! project). }
  assert (Hb : broadcasts s1 = broadcasts s ++ ["add_projects"]).
  { unfold s1, ensure_messages.
    by destruct (messages (append_job project j s) !! project). }
  assert (Hk : backend s1 = backend s).
  { unfold s1. cbn. by rewrite backend_ensure. }
  assert (Hm : is_Some (messages s1 !! project)).
  { unfold s1. cbn. apply ensure_is_Some. }
  assert (Hend : forall s2,
             writes_records s1 s2 ->
             is_Some (messages s2 !! project) ->
             let s' := set_on_complete (insert (job_id j) cb) s2 in
             project_jobs project s' = project_jobs project s ++ [j] /\
             (forall q, q <> project -> project_jobs q s' = project_jobs q s) /\
             on_complete s' = <[job_id j := cb]> (on_complete s) /\
             broadcasts s' = broadcasts s ++ ["add_projects"] /\
             is_Some (messages s' !! project) /\
             backend s' = backend s).
  { intros s2 (J & C & B & K & _) Hs. cbn zeta.
    assert (Hq : forall q,
               project_jobs q (set_on_complete (insert (job_id j) cb) s2)
               = project_jobs q (append_job project j s)).
    { intros q. rewrite <- Hj. unfold project_jobs. cbn. by rewrite J. }
    split; [by rewrite Hq, jobs_append_same|].
    split; [intros q Hne; by rewrite Hq, jobs_append_other|].
    split; [cbn; by rewrite C, Hc|].
    split; [cbn; by rewrite B|].
    split; [exact Hs|cbn; by rewrite K]. }
  destruct (job_children j) as [children|] eqn:Ec.
  - rewrite (register_job_children _ _ _ _ _ _ _ Ec). fold s1.
    pose proof (register_children_writes current_time project taskType
                  children s1) as W.
    pose proof (register_children_known current_time project taskType
                  children s1 Hm) as Kn.
    destruct (register_children current_time project taskType children s1)
      as (s2 & E & _).
    rewrite E in W, Kn |- *. cbn [final] in W, Kn.
    eexists. split; [reflexivity|]. by apply Hend.
  - rewrite (register_job_single _ _ _ _ _ _ Ec). fold s1. cbn zeta.
    eexists. split; [reflexivity|].
    destruct (project_messages project s !! job_id j).
    + apply Hend; [reflexivity|exact Hm].
    + apply Hend.
      * unfold writes_records. by repeat split.
      * cbn. rewrite lookup_insert_eq. eauto.
Qed.

(** ** What [__poll_tasks] reports, releases and raises *)

(** X5.  [__poll_tasks] raises exactly when, for some tracked task of the
    project, the backend's answer is not empty and lacks ['status'], or
    lacks ['result'] while the status is not [FAILURE], or [ready()]
    raises on it.  What it raises is then a [KeyError], or what [ready()]
    raised for such a task, and [self.messages] is as it was. *)
Theorem poll_tasks_raises py_str unstored ready_of items project s :
  enumerates items ->
  ((exists k j, project_messages project s !! k = Some j /\
                msg_ok ready_of (get_task_meta unstored k s) = false) <->
   exists e s',
     poll_tasks py_str unstored ready_of items project s = Raise e s') /\
  (forall e s',
     poll_tasks py_str unstored ready_of items project s = Raise e s' ->
     messages s' = messages s /\
     exists k j,
       project_messages project s !! k = Some j /\
       msg_ok ready_of (get_task_meta unstored k s) = false /\
       (e = Exc "KeyError" \/
        ready_of (get_task_meta unstored k s) = inl e)).
Proof.
  intros Hen.
  pose proof (poll_tasks_run py_str unstored ready_of items project s Hen)
    as H.
  destruct (poll_tasks py_str unstored ready_of items project s)
    as [r s1|e s1].
  - destruct H as (Hok & _). split; [|discriminate]. split.
    + intros (k & j & Hk & Hbad). by rewrite (Hok k j Hk) in Hbad.
    + intros (e & s' & E). discriminate.
  - destruct H as (Hm & k & j & Hk & Hbad & He). split.
    + split; [intros _; by exists e, s1|intros _]. by exists k, j.
    + intros e' s' [= <- <-]. split; [exact Hm|]. by exists k, j.
Qed.

(** X6.  When [__poll_tasks] returns, its flag is true exactly when some
    tracked task of the project has an answer that is not empty and is
    not ready; the stored result of every tracked task with such an
    answer that is ready has been released, and no other stored result
    has been touched. *)
Theorem poll_tasks_flag_and_release py_str unstored ready_of items project s
    statuses ongoing s' :
  enumerates items ->
  poll_tasks py_str unstored ready_of items project s
    = Ok (statuses, ongoing) s' ->
  (ongoing = true <->
   exists k j, project_messages project s !! k = Some j /\
               size (get_task_meta unstored k s) <> 0 /\
               ready_of (get_task_meta unstored k s) = inr false) /\
  (forall k, is_Some (project_messages project s !! k) ->
             size (get_task_meta unstored k s) <> 0 ->
             ready_of (get_task_meta unstored k s) = inr true ->
             backend s' !! k = None) /\
  (forall k, project_messages project s !! k = None \/
             size (get_task_meta unstored k s) = 0 \/
             ready_of (get_task_meta unstored k s) = inr false ->
             backend s' !! k = backend s !! k).
Proof.
  intros Hen E.
  pose proof (poll_tasks_run py_str unstored ready_of items project s Hen)
    as H.
  rewrite E in H. cbn [fst snd] in H.
  destruct H as (_ & _ & _ & _ & _ & Hflag & Hrel & Hkeep). by split.
Qed.

(** ** What the polls leave alone *)

Lemma polls_ensure p s : polls s (ensure_messages p s).
Proof.
  unfold polls. destruct (settles_ensure p s) as [G B].
  unfold ensure_messages in *.
  destruct (messages s !! p); by repeat split.
Qed.

Lemma polls_put_fresh p k r s :
  project_messages p s !! k = None -> polls s (put_message p k r (tick s)).
Proof.
  intros H. unfold polls. destruct (settles_put_fresh p k r s H) as [G B].
  by repeat split.
Qed.

Lemma polls_forget k s : polls s (set_backend (delete k) s).
Proof.
  unfold polls. destruct (settles_forget k s) as [G B]. by repeat split.
Qed.

Section PollsMethods.

Variable current_time : nat -> string.
Variable py_str : pyval -> string.
Variable unstored : gmap string pyval.
Variable ready_of : gmap string pyval -> exn + bool.
Variable items : gmap string status_record -> list (string * status_record).

Lemma keeps_polls_add_worker_task t :
  keeps polls (add_worker_task current_time unstored ready_of t).
Proof.
  intros s. unfold add_worker_task, ready. run.
  set (s1 := ensure_messages (t_routing_key t) s).
  assert (H1 : polls s s1) by apply polls_ensure.
  destruct (project_messages (t_routing_key t) s1 !! t_id t) as [r|] eqn:E.
  - destruct (ready_of _) as [e|[|]]; cbn [final]; try exact H1.
    etransitivity; [exact H1|apply polls_forget].
  - pose proof (polls_put_fresh _ _
                  (worker_record (t_name t) (current_time (clock s1))) _ E)
      as H2.
    destruct (ready_of _) as [e|[|]]; cbn [final]; try (by etransitivity).
    etransitivity; [exact H1|].
    etransitivity; [exact H2|apply polls_forget].
Qed.

Lemma keeps_polls_forget k : keeps polls (forget k).
Proof. intros s. apply polls_forget. Qed.

Lemma keeps_polls_poll_worker_status i project :
  keeps polls (poll_worker_status current_time unstored ready_of i project).
Proof.
  unfold poll_worker_status, worker_round, worker_task.
  repeat first [apply keeps_polls_add_worker_task | keeps_step].
Qed.

Lemma keeps_polls_poll_tasks project :
  keeps polls (poll_tasks py_str unstored ready_of items project).
Proof.
  unfold poll_tasks. repeat keeps_step.
  unfold poll_task. repeat first [apply keeps_polls_forget | keeps_step].
Qed.

Lemma keeps_polls_poll_status i project :
  keeps polls
    (poll_status current_time py_str unstored ready_of items i project).
Proof.
  unfold poll_status.
  repeat first [apply keeps_polls_poll_tasks
               | apply keeps_polls_poll_worker_status
               | keeps_step].
Qed.

End PollsMethods.

(** X7.  The three polling methods leave the bookkeeping alone, whether
    they return or raise: [jobs], [on_complete] and the broadcasts sent
    are the same afterwards, every record that was in [self.messages] is
    still there unchanged, and stored results are released, never
    added. *)
Theorem polls_leave_bookkeeping current_time py_str unstored ready_of items
    i project s s' :
  s' = final (poll_tasks py_str unstored ready_of items project s) \/
  s' = final (poll_worker_status current_time unstored ready_of i project s) \/
  s' = final (poll_status current_time py_str unstored ready_of items
                i project s) ->
  jobs s' = jobs s /\ on_complete s' = on_complete s /\
  broadcasts s' = broadcasts s /\
  (forall p k r, project_messages p s !! k = Some r ->
                 project_messages p s' !! k = Some r) /\
  backend s' ⊆ backend s.
Proof.
  intros H.
  assert (P : polls s s').
  { destruct H as [->|[->| ->]].
    - apply keeps_polls_poll_tasks.
    - apply keeps_polls_poll_worker_status.
    - apply keeps_polls_poll_status. }
  destruct P as (J & C & B & _ & G & K). by repeat split.
Qed.

(** ** The snapshot of [poll_worker_status] *)

Section SnapshotMap.

Context {V : Type} (name : string -> string) (entry : string -> V).

Lemma snapshot_dom stats :
  forall ws : gmap string V,
    dom (foldl (fun ws key => <[name key := entry key]> ws) ws stats)
    = list_to_set (name <$> stats) ∪ dom ws.
Proof.
  induction stats as [|key stats IH]; intros ws; cbn [foldl].
  - cbn. set_solver.
  - rewrite IH, dom_insert_L. cbn. set_solver.
Qed.

Lemma snapshot_untouched stats :
  forall (ws : gmap string V) n,
    (forall key, key ∈ stats -> name key <> n) ->
    foldl (fun ws key => <[name key := entry key]> ws) ws stats !! n = ws !! n.
Proof.
  induction stats as [|key stats IH]; intros ws n Hn; cbn [foldl]; [done|].
  rewrite IH.
  - apply lookup_insert_ne, Hn, elem_of_cons. by left.
  - intros k Hk. apply Hn, elem_of_cons. by right.
Qed.

Lemma snapshot_lookup stats :
  forall (ws : gmap string V) key,
    key ∈ stats ->
    (forall key', key' ∈ stats -> name key' = name key -> key' = key) ->
    foldl (fun ws key => <[name key := entry key]> ws) ws stats !! name key
    = Some (entry key).
Proof.
  induction stats as [|k0 stats IH]; intros ws key Hin Huniq;
    [inversion Hin|].
  cbn [foldl]. destruct (decide (key ∈ stats)) as [Hs|Hs].
  - apply IH; [exact Hs|]. intros k' Hk'. apply Huniq, elem_of_cons. by right.
  - apply elem_of_cons in Hin as [->|Hin]; [|done].
    rewrite snapshot_untouched; [apply lookup_insert_eq|].
    intros k Hk Heq. apply Hs.
    rewrite <- (Huniq k); [exact Hk| |exact Heq].
    apply elem_of_cons. by right.
Qed.

End SnapshotMap.

(** X8.  On a complete reply, and where [ready()] returns for the
    active tasks, [poll_worker_status] returns a snapshot with one entry
    per worker name, the name being the key without its [celery@] parts.
    For a worker whose name no other worker shares, the entry lists the
    ids of exactly those of its active tasks whose routing key is the
    queried project, in the order reported, next to the worker's
    scheduled tasks as they came. *)
Theorem poll_worker_status_snapshot current_time unstored ready_of i project s
    stats active scheduled :
  inspect_ok i = true ->
  active_ok unstored ready_of i s ->
  i_stats i = Some stats -> i_active i = Some active ->
  i_scheduled i = Some scheduled ->
  exists workerStatus s',
    poll_worker_status current_time unstored ready_of i project s
      = Ok workerStatus s' /\
    dom workerStatus = list_to_set (worker_name <$> stats) /\
    forall key,
      key ∈ stats ->
      (forall key', key' ∈ stats ->
                    worker_name key' = worker_name key -> key' = key) ->
      workerStatus !! worker_name key
      = Some (map t_id
                (List.filter
                   (fun t => String.eqb (t_routing_key t) project)
                   (tasks_of active key)),
              scheduled_of scheduled key).
Proof.
  intros Hi Hact Es Ea Esch.
  pose proof (inspect_ok_finds i stats active scheduled Hi Es Ea Esch) as Hf.
  destruct (worker_rounds_run current_time unstored ready_of i project active
              scheduled stats Ea Esch Hf ∅ s Hact) as (s' & E & _ & _).
  exists (foldl (fun ws key =>
                   <[worker_name key :=
                       snapshot_entry project active scheduled key]> ws)
                ∅ stats), s'.
  split; [|split].
  - unfold poll_worker_status. rewrite Es.
    destruct stats as [|w stats]; [|exact E].
    cbn in E. injection E as <-. reflexivity.
  - rewrite (snapshot_dom worker_name
               (snapshot_entry project active scheduled)).
    rewrite dom_empty_L. set_solver.
  - intros key Hkey Huniq.
    apply (snapshot_lookup worker_name
             (snapshot_entry project active scheduled)); assumption.
Qed.

Lemma find_NoDup {V} (l : list (string * V)) kv :
  NoDup l.*1 -> kv ∈ l ->
  List.find (fun x => String.eqb (fst x) (fst kv)) l = Some kv.
Proof.
  induction l as [|x l IH]; intros Hnd Hin; [inversion Hin|].
  apply NoDup_cons in Hnd as [Hx Hnd]. cbn [List.find].
  apply elem_of_cons in Hin as [->|Hin].
  - by rewrite String.eqb_refl.
  - destruct (String.eqb (fst x) (fst kv)) eqn:E; [|by apply IH].
    apply String.eqb_eq in E. exfalso. apply Hx. rewrite E.
    apply list_elem_of_fmap. by exists kv.
Qed.

(** X9.  Tasks that [poll_worker_status] has recorded get no job handle
    from [pollNow]: when the reply is complete, has each worker once and
    reports active tasks only for workers that sent statistics, and
    [ready()] returns for the active tasks, a [pollNow] on the same reply
    right after [poll_worker_status] changes nothing, and [jobs] is still
    what it was before both. *)
Theorem pollNow_after_poll_worker_status current_time unstored ready_of
    i project s :
  inspect_ok i = true ->
  active_ok unstored ready_of i s ->
  (forall stats active,
     i_stats i = Some stats -> i_active i = Some active ->
     NoDup active.*1 /\ forall kv, kv ∈ active -> fst kv ∈ stats) ->
  exists workerStatus s',
    poll_worker_status current_time unstored ready_of i project s
      = Ok workerStatus s' /\
    pollNow current_time i s' = Ok tt s' /\
    jobs s' = jobs s.
Proof.
  intros Hi Hact Hreply.
  pose proof (keeps_polls_poll_worker_status current_time unstored ready_of
                i project s) as (J & _).
  revert J. unfold poll_worker_status, pollNow.
  destruct (i_stats i) as [[|w stats]|] eqn:Es;
    try (intros _; exists ∅, s; by repeat split).
  assert (Hi' := Hi). unfold inspect_ok in Hi'. rewrite Es in Hi'.
  destruct (i_active i) as [active|] eqn:Ea; [|discriminate].
  destruct (i_scheduled i) as [scheduled|] eqn:Esch; [|discriminate].
  clear Hi'.
  destruct (Hreply (w :: stats) active eq_refl eq_refl) as [Hnd Hin].
  destruct (worker_rounds_run current_time unstored ready_of i project active
              scheduled (w :: stats) Ea Esch
              (inspect_ok_finds i (w :: stats) active scheduled Hi Es Ea Esch)
              ∅ s Hact) as (s' & E & _ & T & _).
  rewrite E. cbn [final]. intros J.
  eexists. exists s'. split; [reflexivity|]. split; [|exact J].
  apply for_each_fixed. intros kv Hkv.
  apply for_each_fixed. intros t Ht.
  apply pollNow_task_tracked. apply (T (fst kv) t); [by apply Hin|].
  unfold tasks_of. by rewrite (find_NoDup active kv Hnd Hkv).
Qed.

Lemma worker_round_eq current_time unstored ready_of i project workerStatus
    key s :
  worker_round current_time unstored ready_of i project workerStatus key s =
  match subscript (i_active i) key s with
  | Ok tasks s1 =>
      match for_fold tasks
              (worker_task current_time unstored ready_of project) [] s1 with
      | Ok activeTasks s2 =>
          match subscript (i_scheduled i) key s2 with
          | Ok scheduled s3 =>
              Ok (<[worker_name key := (activeTasks, scheduled)]> workerStatus)
                 s3
          | Raise e s3 => Raise e s3
          end
      | Raise e s2 => Raise e s2
      end
  | Raise e s1 => Raise e s1
  end.
Proof. reflexivity. Qed.

(** X10.  Where [poll_worker_status] gives up on a reply with statistics:
    an [active()] reply of [None] is a [TypeError] and a first worker
    missing from it a [KeyError], both before anything was changed; a
    [scheduled()] reply of [None] is a [TypeError] too, but, where
    [ready()] returns for the active tasks, only after the active tasks
    of the first worker have been recorded, and these records stay. *)
Theorem poll_worker_status_partial_replies current_time unstored ready_of
    i project s key stats :
  i_stats i = Some (key :: stats) ->
  (i_active i = None ->
   poll_worker_status current_time unstored ready_of i project s
     = Raise (Exc "TypeError") s) /\
  (forall active,
     i_active i = Some active ->
     List.find (fun kv => String.eqb (fst kv) key) active = None ->
     poll_worker_status current_time unstored ready_of i project s
       = Raise (Exc "KeyError") s) /\
  (forall active kv,
     i_active i = Some active ->
     List.find (fun kv => String.eqb (fst kv) key) active = Some kv ->
     i_scheduled i = None ->
     active_ok unstored ready_of i s ->
     exists s',
       poll_worker_status current_time unstored ready_of i project s
         = Raise (Exc "TypeError") s' /\
       (forall t, t ∈ snd kv -> tracked t s') /\
       jobs s' = jobs s).
Proof.
  intros Es. unfold poll_worker_status. rewrite Es. cbn [for_fold].
  run. rewrite worker_round_eq. split; [|split].
  - intros ->. reflexivity.
  - intros active -> Hf. unfold subscript. rewrite Hf. reflexivity.
  - intros active kv Ea Hf Esch [Hu Hact].
    destruct (worker_tasks_run current_time unstored ready_of project
                (snd kv) Hu [] s) as (s' & E & _ & T & _).
    { intros t Ht. apply Hact, (tasks_of_active i active key t Ea).
      unfold tasks_of. by rewrite Hf. }
    pose proof (keeps_for_fold polls
                  (worker_task current_time unstored ready_of project)
                  (snd kv)
                  (fun b t => keeps_bind polls _ _
                                (keeps_polls_add_worker_task current_time
                                   unstored ready_of t)
                                (fun _ => keeps_ret polls _)) [] s)
      as (J & _).
    rewrite E in J. cbn [final] in J.
    exists s'. rewrite Ea, (subscript_found _ _ _ _ Hf), E, Esch.
    by repeat split.
Qed.

(** ** Job handles and records under [pollNow] *)

Lemma jobs_ensure p q s :
  project_jobs q (ensure_messages p s) = project_jobs q s.
Proof. unfold ensure_messages. by destruct (messages s !! p). Qed.

Lemma keeps_paired_pollNow_task current_time t :
  keeps paired (pollNow_task current_time t).
Proof.
  intros s. rewrite pollNow_task_eq. cbn zeta.
  destruct (project_messages (t_routing_key t)
              (ensure_messages (t_routing_key t) s) !! t_id t) eqn:E;
    cbn [final]; intros p.
  - by rewrite jobs_ensure, messages_ensure.
  - rewrite messages_ensure in E. rewrite messages_append_job.
    destruct (decide (t_routing_key t = p)) as [<-|Hne].
    + rewrite jobs_append_same, length_app, messages_put_same, messages_tick.
      rewrite messages_ensure, (map_size_insert_None _ _ _ E).
      change (project_jobs (t_routing_key t)
                (put_message (t_routing_key t) (t_id t)
                   (worker_record (t_name t)
                      (current_time
                         (clock (ensure_messages (t_routing_key t) s))))
                   (tick (ensure_messages (t_routing_key t) s))))
        with (project_jobs (t_routing_key t)
                (ensure_messages (t_routing_key t) s)).
      rewrite jobs_ensure. cbn. lia.
    + rewrite jobs_append_other by done.
      rewrite messages_put_other, messages_tick, messages_ensure by done.
      change (project_jobs p
                (put_message (t_routing_key t) (t_id t)
                   (worker_record (t_name t)
                      (current_time
                         (clock (ensure_messages (t_routing_key t) s))))
                   (tick (ensure_messages (t_routing_key t) s))))
        with (project_jobs p (ensure_messages (t_routing_key t) s)).
      by rewrite jobs_ensure.
Qed.

(** X11.  [pollNow] adds job handles and records in step: for every
    project, the job list grows by as many handles as the message table
    grows by records, whether the sweep returns or raises. *)
Theorem pollNow_pairs_handles current_time i s p :
  let s' := final (pollNow current_time i s) in
  length (project_jobs p s') + size (project_messages p s)
  = length (project_jobs p s) + size (project_messages p s').
Proof.
  cbn zeta. revert p.
  change (paired s (final (pollNow current_time i s))).
  revert s. change (keeps paired (pollNow current_time i)).
  unfold pollNow.
  repeat first [apply keeps_paired_pollNow_task | keeps_step].
Qed.

(* ===================================================================== *)
(** * More on the Reception routes                                        *)
(* ===================================================================== *)

(** The name the routes [/] and [/getProjects] work with is the escaped
    cookie or empty. *)
Lemma escaped_or_empty r req :
  let attempt : result string :=
    logged_in ← call_login_check r req None;
    if truthy logged_in then escape (cookie_username req) else Return "" in
  let username :=
    match attempt with Return username => username | Throw _ => "" end in
  username = "" \/
  exists u, cookie_username req = Some u /\ username = html_escape u.
Proof.
  cbn zeta. destruct (call_login_check r req None) as [v|e]; cbn; [|by left].
  destruct (truthy v); [|by left].
  destruct (cookie_username req) as [u|]; cbn; [|by left].
  right. by exists u.
Qed.

(** X12.  Whatever the request and whatever is installed, the display
    name the landing page is rendered with contains none of the
    characters [<], [>], double quote and single quote. *)
Theorem display_name_escaped r req :
  occurs "<"%char (display_name r req) = false /\
  occurs ">"%char (display_name r req) = false /\
  occurs dquote (display_name r req) = false /\
  occurs squote (display_name r req) = false.
Proof.
  unfold display_name. destruct (demoMode r); [by repeat split|].
  destruct (escaped_or_empty r req) as [->|(u & _ & ->)].
  - by repeat split.
  - apply html_escape_no_markup.
Qed.

(** X13.  Route [/getProjects]: with no login check installed the route
    answers 500 whatever the service would say; if the superuser check
    raises, the exception leaves the route; if it returns [v], the
    service is asked once, with [v] as the privilege flag and with a user
    name that is empty or the escaped cookie, and its answer is returned
    under the key [projects]. *)
Theorem get_projects_service_call get_project_info r req :
  (login_check r = None ->
   respond (get_projects get_project_info r req) = Some (HTTPError 500)) /\
  (forall e,
     loginCheck r req None false true false false = Throw e ->
     get_projects get_project_info r req = Throw e) /\
  (forall v,
     loginCheck r req None false true false false = Return v ->
     exists username,
       (username = "" \/
        exists u, cookie_username req = Some u /\ username = html_escape u) /\
       get_projects get_project_info r req =
         (projectInfo ← get_project_info username v;
          Return (Body (VDict [("projects", projectInfo)])))).
Proof.
  unfold get_projects. split; [|split].
  - intros Hn. unfold loginCheck, call_login_check. rewrite Hn. reflexivity.
  - intros e ->. reflexivity.
  - intros v ->. eexists. split; [apply (escaped_or_empty r req)|].
    reflexivity.
Qed.

(** X14.  Route [/<project>/enroll] consults the service at most once, on
    the project, the escaped cookie and the escaped token (absent when
    the query has none): two services that agree there give the same
    outcome.  A response the service raises itself is passed on as it is
    and is not turned into a 400. *)
Theorem enroll_consults_service_once service service' r req project :
  ((forall u, cookie_username req = Some u ->
      service project (html_escape u) (html_escape <$> query_t req)
      = service' project (html_escape u) (html_escape <$> query_t req)) ->
   enroll_in_project service r req project
   = enroll_in_project service' r req project) /\
  (forall v u res,
     call_login_check r req None = Return v -> truthy v = true ->
     cookie_username req = Some u ->
     service project (html_escape u) (html_escape <$> query_t req)
       = Throw (ExcHTTP res) ->
     respond (enroll_in_project service r req project) = Some res).
Proof.
  split.
  - intros H. unfold enroll_in_project, enroll_attempt, query.
    destruct (call_login_check r req None) as [v|e]; cbn; [|reflexivity].
    destruct (truthy v); cbn; [|reflexivity].
    destruct (cookie_username req) as [u|]; cbn; [|reflexivity].
    specialize (H u eq_refl).
    destruct (query_t req); cbn in *; by rewrite H.
  - intros v u res Hcall Hv Hu Hs. unfold enroll_in_project.
    rewrite (enroll_attempt_logged_in _ _ _ _ _ _ Hcall Hv Hu), Hs.
    reflexivity.
Qed.

(* ===================================================================== *)
(** * Registering and then polling                                        *)
(* ===================================================================== *)

Lemma clock_ensure p s : clock (ensure_messages p s) = clock s.
Proof. unfold ensure_messages. by destruct (messages s !! p). Qed.

(** X15.  A job registered under a new id is found by the next sweep of
    [__poll_tasks]: if the loop gets through the backend's answers and
    the answer for the job carries a status, the sweep returns and the
    status map has an entry at the job's id that carries the registered
    type, the time of the registration and the backend's status. *)
Theorem registered_job_polled current_time py_str unstored ready_of items
    project j taskType cb msg status s :
  enumerates items ->
  job_children j = None ->
  project_messages project s !! job_id j = None ->
  backend_ok unstored ready_of s ->
  get_task_meta unstored (job_id j) s = msg ->
  msg !! "status" = Some status ->
  exists s1 statuses ongoing s2 entry,
    register_job current_time project j taskType cb s = Ok tt s1 /\
    poll_tasks py_str unstored ready_of items project s1
      = Ok (statuses, ongoing) s2 /\
    statuses !! job_id j = Some entry /\
    r_type entry = taskType /\
    r_submitted entry = current_time (clock s) /\
    r_status entry = status.
Proof.
  intros Hen Hc Hnew Hok Hmsg Hstatus.
  rewrite (register_job_single _ _ _ _ _ _ Hc). cbn zeta. rewrite Hnew.
  set (s0 := send "add_projects"
               (ensure_messages project (append_job project j s))).
  set (rec := registered_record taskType (current_time (clock s0))).
  set (s1 := set_on_complete (insert (job_id j) cb)
               (put_message project (job_id j) rec (tick s0))).
  assert (Hb : backend s1 = backend s).
  { unfold s1, s0. cbn. by rewrite backend_ensure. }
  assert (Hok1 : backend_ok unstored ready_of s1).
  { eapply backend_ok_subseteq; [|exact Hok]. by rewrite Hb. }
  assert (Hrec : project_messages project s1 !! job_id j = Some rec).
  { unfold s1. rewrite messages_set_on_complete, messages_put_same.
    apply lookup_insert_eq. }
  assert (Hmeta : get_task_meta unstored (job_id j) s1 = msg).
  { rewrite <- Hmsg. apply get_task_meta_frame. by rewrite Hb. }
  pose proof (poll_tasks_run py_str unstored ready_of items project s1 Hen)
    as H.
  destruct (poll_tasks_returns py_str unstored ready_of items project s1 Hen
              (backend_ok_tracked _ _ _ _ Hok1))
    as ([statuses ongoing] & s2 & E).
  rewrite E in H. cbn [fst snd] in H. destruct H as (_ & _ & _ & _ & Hin & _).
  destruct (Hin (job_id j) rec Hrec) as [_ Hn]. rewrite Hmeta in Hn.
  destruct Hn as (entry & He & Hl).
  { intros Hz. apply map_size_empty_inv in Hz.
    by rewrite Hz, lookup_empty in Hstatus. }
  destruct (poll_entry_meta py_str rec msg status entry Hstatus He)
    as (Ht & Hsub & Hst & _).
  exists s1, statuses, ongoing, s2, entry.
  split; [reflexivity|]. split; [exact E|]. split; [exact Hl|].
  split; [exact Ht|]. split; [|exact Hst].
  rewrite Hsub. unfold rec, s0. cbn. by rewrite clock_ensure.
Qed.

(** X16.  Registering makes [task_ongoing] true: after a job with at
    least one child, or a job without children under an id that had no
    record, was registered with a type, the next [task_ongoing] for the
    project and that type answers true whenever its sweep returns. *)
Theorem registered_task_is_ongoing current_time i project j taskType cb
    s s1 s2 :
  register_job current_time project j taskType cb s = Ok tt s1 ->
  (exists c children, job_children j = Some (c :: children)) \/
  (job_children j = None /\ project_messages project s !! job_id j = None) ->
  pollNow current_time i s1 = Ok tt s2 ->
  task_ongoing current_time i project taskType s1 = Ok true s2.
Proof.
  intros Hreg Hjob Hpoll.
  assert (Hrec : exists k submitted,
             project_messages project s1 !! k
             = Some (registered_record taskType submitted)).
  { destruct Hjob as [(c & children & Hc)|[Hc Hnew]].
    - rewrite (register_job_children _ _ _ _ _ _ _ Hc) in Hreg.
      destruct (register_children current_time project taskType
                  (c :: children)
                  (send "add_projects"
                     (ensure_messages project (append_job project j s))))
        as (s' & E & _ & _ & Hin & _).
      rewrite E in Hreg. injection Hreg as <-.
      destruct (Hin c) as [submitted Hs]; [apply elem_of_cons; by left|].
      exists c, submitted. exact Hs.
    - destruct (register_job_new current_time project j taskType cb s Hc Hnew)
        as (s' & submitted & E & Hm & _).
      rewrite E in Hreg. injection Hreg as <-.
      exists (job_id j), submitted. rewrite Hm. apply lookup_insert_eq. }
  destruct Hrec as (k & submitted & Hk).
  assert (Hk2 : project_messages project s2 !! k
                = Some (registered_record taskType submitted)).
  { destruct (pollNow_outcome current_time i s1) as [(s' & E & G)|[_ E]];
      rewrite E in Hpoll; [|discriminate].
    injection Hpoll as <-. by apply G. }
  rewrite (task_ongoing_run _ _ _ _ _ _ Hpoll). f_equal.
  apply existsb_map_to_list.
  exists k, (registered_record taskType submitted). split; [exact Hk2|].
  apply ongoing_record_true. cbn. split; [done|]. split; discriminate.
Qed.

(* ===================================================================== *)
(** * When the control plane is asked                                     *)
(* ===================================================================== *)

(** X17.  [poll_status] asks the control plane only when no tracked task
    is still running: if the loop gets through the backend's answers for
    the tracked tasks of the project, and for one of them the answer is
    not empty and not ready, the outcome of [poll_status] is the same for
    every reply of the control plane, it is the map of the first sweep,
    and [self.messages] is unchanged. *)
Theorem poll_status_skips_control_plane current_time py_str unstored ready_of
    items project s :
  enumerates items ->
  tracked_ok unstored ready_of project s ->
  (exists k j, project_messages project s !! k = Some j /\
               size (get_task_meta unstored k s) <> 0 /\
               ready_of (get_task_meta unstored k s) = inr false) ->
  exists statuses s1,
    poll_tasks py_str unstored ready_of items project s
      = Ok (statuses, true) s1 /\
    messages s1 = messages s /\
    forall i,
      poll_status current_time py_str unstored ready_of items i project s
        = Ok statuses s1.
Proof.
  intros Hen Hok Hrun.
  pose proof (poll_tasks_run py_str unstored ready_of items project s Hen)
    as H.
  destruct (poll_tasks_returns py_str unstored ready_of items project s Hen
              Hok) as ([statuses ongoing] & s1 & E).
  rewrite E in H. cbn [fst snd] in H.
  destruct H as (_ & Hm & _ & _ & _ & Hflag & _).
  apply Hflag in Hrun. subst ongoing.
  exists statuses, s1. split; [exact E|]. split; [exact Hm|].
  intros i. rewrite poll_status_eq, E. reflexivity.
Qed.

(* ===================================================================== *)
(** * What [pollNow] leaves alone                                         *)
(* ===================================================================== *)

#[local] Instance sweeps_preorder : PreOrder sweeps.
Proof.
  split.
  - intros s. unfold sweeps. repeat split; reflexivity.
  - intros s1 s2 s3 (B1 & C1 & S1 & G1) (B2 & C2 & S2 & G2).
    unfold sweeps. repeat split; try congruence. by etransitivity.
Qed.

Lemma keeps_sweeps_pollNow_task current_time t :
  keeps sweeps (pollNow_task current_time t).
Proof.
  intros s.
  destruct (pollNow_task_tracks current_time t s) as (s' & E & G & _).
  rewrite E. cbn [final]. revert E. rewrite pollNow_task_eq. cbn zeta.
  unfold sweeps.
  destruct (project_messages _ _ !! t_id t); intros [= <-]; cbn;
    rewrite ?backend_ensure; repeat split; try exact G;
    unfold ensure_messages; by destruct (messages s !! t_routing_key t).
Qed.

(** X18.  [pollNow] and [task_ongoing] never touch the result backend:
    whether they return or raise, the stored results, the callbacks and
    the broadcasts sent are the same afterwards, and every record that
    was in [self.messages] is still there unchanged. *)
Theorem pollNow_releases_nothing current_time i project taskType s s' :
  s' = final (pollNow current_time i s) \/
  s' = final (task_ongoing current_time i project taskType s) ->
  backend s' = backend s /\ on_complete s' = on_complete s /\
  broadcasts s' = broadcasts s /\
  (forall p k r, project_messages p s !! k = Some r ->
                 project_messages p s' !! k = Some r).
Proof.
  assert (P : keeps sweeps (pollNow current_time i)).
  { unfold pollNow.
    repeat first [apply keeps_sweeps_pollNow_task | keeps_step]. }
  assert (Q : keeps sweeps (task_ongoing current_time i project taskType)).
  { unfold task_ongoing. keeps_step; [exact P|]. repeat keeps_step. }
  intros [->| ->]; [apply P|apply Q].
Qed.

(* ===================================================================== *)
(** * The further properties at concrete inputs                           *)
(* ===================================================================== *)

Lemma records_stay_pending_witness :
  project_messages "projA"
    (after_calls noon strokes render_text celery_unstored celery_ready
       map_to_list ∅ finished_calls) !! "j1"
    = Some (registered_record "inference" (noon 0)) /\
  r_status (registered_record "inference" (noon 0)) = VStr PENDING.
Proof.
  split; [vm_compute; reflexivity|].
  apply (records_stay_pending noon strokes render_text celery_unstored
           celery_ready map_to_list ∅ finished_calls "projA" "j1").
  vm_compute. reflexivity.
Defined.

Lemma task_ongoing_ignores_backend_witness :
  exists answer,
    task_ongoing noon no_worker "projA" "inference"
      (after_calls noon strokes render_text celery_unstored celery_ready
         map_to_list ∅ finished_calls)
    = Ok answer
        (after_calls noon strokes render_text celery_unstored celery_ready
           map_to_list ∅ finished_calls) /\
    (answer = true <->
     exists key r,
       project_messages "projA"
         (after_calls noon strokes render_text celery_unstored celery_ready
            map_to_list ∅ finished_calls) !! key
       = Some r /\ r_type r = "inference").
Proof.
  apply (task_ongoing_ignores_backend noon strokes render_text celery_unstored
           celery_ready map_to_list ∅ finished_calls no_worker "projA"
           "inference").
  vm_compute. reflexivity.
Defined.

Lemma poll_tasks_raises_witness :
  exists e s',
    poll_tasks render_text celery_unstored celery_ready map_to_list
      "projA" broken_state = Raise e s'.
Proof.
  apply (proj1 (proj1 (poll_tasks_raises render_text celery_unstored
                         celery_ready map_to_list "projA" broken_state
                         enumerates_map_to_list))).
  exists "c2", (registered_record "train" (noon 1)).
  split; vm_compute; reflexivity.
Defined.

Lemma poll_tasks_flag_and_release_witness :
  backend (final (poll_tasks render_text celery_unstored celery_ready
                    map_to_list "projA" registered_state)) !! "c1"
  = None.
Proof.
  destruct (poll_tasks render_text celery_unstored celery_ready map_to_list
              "projA" registered_state)
    as [[statuses ongoing] s'|e s'] eqn:E.
  - cbn [final].
    apply (proj1 (proj2 (poll_tasks_flag_and_release render_text
                           celery_unstored celery_ready map_to_list "projA"
                           registered_state statuses ongoing s'
                           enumerates_map_to_list E)) "c1").
    + vm_compute. eexists. reflexivity.
    + vm_compute. discriminate.
    + vm_compute. reflexivity.
  - vm_compute in E. discriminate E.
Defined.

Lemma polls_leave_bookkeeping_witness :
  jobs (final (poll_status noon render_text celery_unstored celery_ready
                 map_to_list one_worker "projA" registered_state))
  = jobs registered_state.
Proof.
  apply (proj1 (polls_leave_bookkeeping noon render_text celery_unstored
                  celery_ready map_to_list one_worker "projA"
                  registered_state _ (or_intror (or_intror eq_refl)))).
Defined.

Lemma poll_worker_status_snapshot_witness :
  exists workerStatus s',
    poll_worker_status noon celery_unstored celery_ready one_worker "projA"
      registered_state = Ok workerStatus s' /\
    workerStatus !! "w1" = Some (["a1"; "a2"; "a1"], VList []).
Proof.
  destruct (poll_worker_status_snapshot noon celery_unstored celery_ready
              one_worker "projA" registered_state ["celery@w1"]
              [("celery@w1",
                [mkTask "a1" "AIWorker.call_train" "projA";
                 mkTask "a2" "AIWorker.call_inference" "projA";
                 mkTask "a1" "AIWorker.call_train" "projA"])]
              [("celery@w1", VList [])]
              eq_refl
              (active_ok_check celery_unstored celery_ready one_worker
                 registered_state eq_refl eq_refl)
              eq_refl eq_refl eq_refl)
    as (workerStatus & s' & E & _ & Hl).
  exists workerStatus, s'. split; [exact E|].
  apply (Hl "celery@w1").
  - apply elem_of_cons. by left.
  - intros key' Hk _. apply elem_of_cons in Hk as [->|Hk]; [reflexivity|].
    inversion Hk.
Defined.

Lemma pollNow_after_poll_worker_status_witness :
  exists workerStatus s',
    poll_worker_status noon celery_unstored celery_ready one_worker "projA"
      registered_state = Ok workerStatus s' /\
    pollNow noon one_worker s' = Ok tt s' /\
    jobs s' = jobs registered_state.
Proof.
  apply (pollNow_after_poll_worker_status noon celery_unstored celery_ready
           one_worker "projA" registered_state).
  - reflexivity.
  - apply active_ok_check; vm_compute; reflexivity.
  - intros stats active [= <-] [= <-]. split.
    + apply NoDup_singleton.
    + intros kv Hkv. apply elem_of_cons in Hkv as [->|Hkv];
        [apply elem_of_cons; by left|inversion Hkv].
Defined.

Lemma poll_worker_status_partial_replies_witness :
  poll_worker_status noon celery_unstored celery_ready partial_reply "projA"
    registered_state = Raise (Exc "TypeError") registered_state /\
  exists s',
    poll_worker_status noon celery_unstored celery_ready no_scheduled "projA"
      registered_state = Raise (Exc "TypeError") s' /\
    tracked (mkTask "a1" "AIWorker.call_train" "projA") s'.
Proof.
  split.
  - apply (proj1 (poll_worker_status_partial_replies noon celery_unstored
                    celery_ready partial_reply "projA" registered_state
                    "celery@w1" [] eq_refl)).
    reflexivity.
  - destruct (proj2 (proj2 (poll_worker_status_partial_replies noon
                              celery_unstored celery_ready no_scheduled
                              "projA" registered_state "celery@w1" []
                              eq_refl))
                _ ("celery@w1",
                   [mkTask "a1" "AIWorker.call_train" "projA"])
                eq_refl eq_refl eq_refl
                (active_ok_check celery_unstored celery_ready no_scheduled
                   registered_state eq_refl eq_refl))
      as (s' & E & T & _).
    exists s'. split; [exact E|]. apply T, elem_of_cons. by left.
Defined.

Lemma get_projects_service_call_witness :
  respond (get_projects no_projects (Reception.init false) alice)
    = Some (HTTPError 500) /\
  get_projects no_projects
    (addLoginCheckFun superuser_only (Reception.init false)) alice
    = Return (Body (VDict [("projects", VList [])])).
Proof.
  split.
  - apply (proj1 (get_projects_service_call no_projects
                    (Reception.init false) alice)).
    reflexivity.
  - destruct (proj2 (proj2 (get_projects_service_call no_projects
                              (addLoginCheckFun superuser_only
                                 (Reception.init false)) alice))
                (VBool true) eq_refl) as (username & _ & E).
    rewrite E. reflexivity.
Defined.

Lemma enroll_consults_service_once_witness :
  respond (enroll_in_project forbidding
             (addLoginCheckFun always_logged_in (Reception.init false))
             mallory "p")
  = Some (HTTPError 403).
Proof.
  apply (proj2 (enroll_consults_service_once forbidding forbidding
                  (addLoginCheckFun always_logged_in (Reception.init false))
                  mallory "p") (VBool true) "<b>mallory</b>" (HTTPError 403));
    reflexivity.
Defined.

Lemma registered_job_polled_witness :
  exists s1 statuses ongoing s2 entry,
    register_job noon "projA" single_job "inference" None
      (MessageProcessor.init backend_j1) = Ok tt s1 /\
    poll_tasks render_text celery_unstored celery_ready map_to_list
      "projA" s1 = Ok (statuses, ongoing) s2 /\
    statuses !! "j1" = Some entry /\
    r_type entry = "inference" /\
    r_submitted entry = noon 0 /\
    r_status entry = VStr "SUCCESS".
Proof.
  apply (registered_job_polled noon render_text celery_unstored celery_ready
           map_to_list "projA" single_job "inference" None succeeded_j1
           (VStr "SUCCESS") (MessageProcessor.init backend_j1)).
  - apply enumerates_map_to_list.
  - reflexivity.
  - vm_compute. reflexivity.
  - apply backend_ok_check; vm_compute; reflexivity.
  - vm_compute. reflexivity.
  - vm_compute. reflexivity.
Defined.

Lemma registered_task_is_ongoing_witness :
  task_ongoing noon no_worker "projA" "train" registered_state
  = Ok true registered_state.
Proof.
  apply (registered_task_is_ongoing noon no_worker "projA" group_job "train"
           None (MessageProcessor.init backend_c1)).
  - vm_compute. reflexivity.
  - left. exists "c1", ["c2"]. reflexivity.
  - vm_compute. reflexivity.
Defined.

Lemma poll_status_skips_control_plane_witness :
  exists statuses s1,
    poll_tasks render_text celery_unstored celery_ready map_to_list
      "projA" running_state = Ok (statuses, true) s1 /\
    messages s1 = messages running_state /\
    forall i,
      poll_status noon render_text celery_unstored celery_ready map_to_list
        i "projA" running_state = Ok statuses s1.
Proof.
  apply (poll_status_skips_control_plane noon render_text celery_unstored
           celery_ready map_to_list "projA" running_state).
  - apply enumerates_map_to_list.
  - apply backend_ok_tracked, backend_ok_check; vm_compute; reflexivity.
  - exists "c1", (registered_record "train" (noon 0)).
    split; [vm_compute; reflexivity|].
    split; [vm_compute; discriminate|vm_compute; reflexivity].
Defined.

Lemma pollNow_releases_nothing_witness :
  backend (final (task_ongoing noon one_worker "projA" "train"
                    registered_state))
  = backend registered_state.
Proof.
  apply (proj1 (pollNow_releases_nothing noon one_worker "projA" "train"
                  registered_state _ (or_intror eq_refl))).
Defined.
